(** * Job control of the Unix shell job scheduler (shell_job_scheduler.c)

    A shallow embedding of the job table, the foreground wait, the
    built-in commands and the signal handlers of the shell, followed by
    the properties of the job-control subsystem proved about them.

    Conventions of the embedding.
    - [int] and [pid_t] values are [Z]; array indices and [job_count],
      which the code keeps within [0 .. MAX_JOBS], are [nat].
    - The global array [jobs] is a list of slots; a [job_t *] returned by
      the lookup functions is the index of the slot it points to, so that
      a pointer kept across a wait still designates the same slot after
      the table has been shifted underneath it.
    - Everything the process does to the outside world (bytes written,
      signals sent, the system calls of the forked child) is appended to a
      trace of events.
    - What the kernel answers is an input of the functions: the value
      returned by [fork], the statuses returned by [waitpid].
    - The blocking [waitpid] of the foreground wait is a suspension point:
      a computation that reaches it is [Blocked], exposing the state the
      signal handlers see, and continues with what the kernel answers in
      the state the handlers have left.
    - A function of the main program is embedded as it runs when no
      signal handler runs between two of its statements, the wait apart;
      [add_job] and [wait_for_fg] are given statement by statement as
      well, with handlers in between.
    - Signed overflow of [next_job_id++], an [atoi] result outside [int],
      an overflowing [strcat] and an out-of-bounds array read are
      undefined behaviour in C: the computation is [Undef]. *)

From Stdlib Require Import Ascii String.
From stdpp Require Import base numbers list relations strings pretty.

Open Scope Z_scope.

(** ** Constants *)

Definition MAX_LINE : nat := 1024.
Definition MAX_JOBS : nat := 100.
Definition MAX_ARGS : nat := 64.
Definition INT_MAX : Z := 2147483647.
Definition INT_MIN : Z := -2147483648.

(** ** Data model *)

Inductive job_state_t := RUNNING | STOPPED | DONE.

Record job_t := Job {
  job_id : Z;
  pid : Z;
  state : job_state_t;
  command : string
}.

Global Instance job_state_eq_dec : EqDecision job_state_t.
Proof. solve_decision. Defined.

Global Instance job_eq_dec : EqDecision job_t.
Proof. solve_decision. Defined.

(** A slot as [memset (jobs, 0, sizeof jobs)] leaves it. *)
Definition zero_job : job_t := Job 0 0 RUNNING "".

Global Instance job_inhabited : Inhabited job_t := populate zero_job.

(** The globals of the program. *)
Record shell := Shell {
  jobs : list job_t;
  job_count : nat;
  next_job_id : Z;
  fg_pid : Z
}.

Definition set_jobs (js : list job_t) (n : nat) (s : shell) : shell :=
  Shell js n (next_job_id s) (fg_pid s).

Definition set_fg_pid (p : Z) (s : shell) : shell :=
  Shell (jobs s) (job_count s) (next_job_id s) p.

(** The entries the program regards as present: [jobs[0 .. job_count-1]]. *)
Definition table (s : shell) : list job_t := take (job_count s) (jobs s).

(** The array has [MAX_JOBS] slots and [job_count] stays within it. *)
Definition array_ok (s : shell) : Prop :=
  length (jobs s) = MAX_JOBS ∧ (job_count s ≤ MAX_JOBS)%nat.

(** ** The outside world *)

Inductive signal := SIGINT | SIGTSTP | SIGCHLD | SIGCONT | SIGKILL.

Inductive errno_t := EINTR | ECHILD | EINVAL | EAGAIN | ENOMEM.

Global Instance errno_eq_dec : EqDecision errno_t.
Proof. solve_decision. Defined.

(** The status word filled in by [waitpid], as the W* macros read it. *)
Inductive wstatus :=
| Wexited (code : Z)
| Wsignaled (sig : Z)
| Wstopped (sig : Z).

Definition WIFEXITED (w : wstatus) : bool :=
  match w with Wexited _ => true | _ => false end.
Definition WIFSIGNALED (w : wstatus) : bool :=
  match w with Wsignaled _ => true | _ => false end.
Definition WIFSTOPPED (w : wstatus) : bool :=
  match w with Wstopped _ => true | _ => false end.

(** What the blocking [waitpid (pid, &status, WUNTRACED)] returns: the pid
    with a status, or -1 with [errno] set. *)
Inductive wait_result :=
| WaitStatus (w : wstatus)
| WaitError (e : errno_t).

Inductive event :=
| Printf (text : string)
| Fflush
| Perror (prefix : string) (e : errno_t)
| Kill (target : Z) (sig : signal)
| SignalDfl (sig : signal)
| Setpgid (target pgid : Z)
| Execvp (args : list string).

(** ** Computations *)

Inductive run (A : Type) : Type :=
| Ret (a : A) (s : shell) (t : list event)
| Blocked (child : Z) (s : shell) (t : list event)
    (k : wait_result → shell → list event → run A)
| Exited (code : Z) (t : list event)
| Replaced (t : list event)
| Undef.

Arguments Ret {A} a s t.
Arguments Blocked {A} child s t k.
Arguments Exited {A} code t.
Arguments Replaced {A} t.
Arguments Undef {A}.

Definition M (A : Type) : Type := shell → list event → run A.

Fixpoint run_bind {A B} (f : A → M B) (m : run A) : run B :=
  match m with
  | Ret a s t => f a s t
  | Blocked p s t k => Blocked p s t (λ r s' t', run_bind f (k r s' t'))
  | Exited c t => Exited c t
  | Replaced t => Replaced t
  | Undef => Undef
  end.

Global Instance M_ret : MRet M := λ A a s t, Ret a s t.
Global Instance M_bind : MBind M := λ A B f m s t, run_bind f (m s t).

Definition get : M shell := λ s t, Ret s s t.
Definition modify (f : shell → shell) : M unit := λ s t, Ret tt (f s) t.
Definition emit (e : event) : M unit := λ s t, Ret tt s (t ++ [e]).
Definition undefined {A} : M A := λ _ _, Undef.
Definition exit {A} (code : Z) : M A := λ _ t, Exited code t.
Definition replaced {A} : M A := λ _ t, Replaced t.

(** The blocking [waitpid]: the caller is suspended with the current state
    in view of the handlers, and resumes with the kernel's answer in the
    state the handlers left. *)
Definition waitpid_blocking (p : Z) : M wait_result :=
  λ s t, Blocked p s t (λ r s' t', Ret r s' t').

Definition printf (text : string) : M unit := emit (Printf text).
Definition perror (prefix : string) (e : errno_t) : M unit := emit (Perror prefix e).
Definition kill (p : Z) (sig : signal) : M unit := emit (Kill p sig).

(** [%d] *)
Definition dec (n : Z) : string := pretty n.

(** The newline character of the format strings. *)
Definition nl : string := String "010"%char EmptyString.

(** ** Job table *)

(** [find_job_by_pid], [find_job_by_id]: the first slot below [job_count]
    that passes the test; [n] counts the slots still to visit. *)
Fixpoint find_job (test : job_t → bool) (js : list job_t) (i n : nat) : option nat :=
  match n with
  | O => None
  | S n' => if test (js !!! i) then Some i else find_job test js (S i) n'
  end.

Definition find_job_by_pid (p : Z) (s : shell) : option nat :=
  find_job (λ j, bool_decide (pid j = p)) (jobs s) 0 (job_count s).

Definition find_job_by_id (id : Z) (s : shell) : option nat :=
  find_job (λ j, bool_decide (job_id j = id)) (jobs s) 0 (job_count s).

(** [strncpy (dst, src, n)] into a slot whose byte [n] is 0. *)
Fixpoint strncpy (n : nat) (src : string) : string :=
  match n, src with
  | S n', String c rest => String c (strncpy n' rest)
  | _, _ => EmptyString
  end.

(** The entry [add_job] writes into [jobs[job_count]], and the globals
    after its four assignments and the two increments. *)
Definition new_job (p : Z) (cmd : string) (st : job_state_t) (s : shell) : job_t :=
  Job (next_job_id s) p st (strncpy (MAX_LINE - 1) cmd).

Definition with_new_job (p : Z) (cmd : string) (st : job_state_t) (s : shell) : shell :=
  Shell (<[job_count s := new_job p cmd st s]> (jobs s))
        (S (job_count s)) (next_job_id s + 1) (fg_pid s).

(** [next_job_id++] at [INT_MAX] overflows a signed [int]: the behaviour
    is undefined. *)
Definition add_job (p : Z) (cmd : string) (st : job_state_t) : M unit :=
  s ← get;
  if bool_decide (MAX_JOBS ≤ job_count s)%nat then
    printf ("Job queue full" +:+ nl)
  else if bool_decide (next_job_id s = INT_MAX) then undefined
  else modify (with_new_job p cmd st).

(** The inner loop of [remove_job]: [jobs[j] = jobs[j + 1]], [n] times. *)
Fixpoint shift_jobs (js : list job_t) (j n : nat) : list job_t :=
  match n with
  | O => js
  | S n' => shift_jobs (<[j := js !!! S j]> js) (S j) n'
  end.

Fixpoint remove_job_from (p : Z) (s : shell) (i n : nat) : shell :=
  match n with
  | O => s
  | S n' =>
      if bool_decide (pid (jobs s !!! i) = p) then
        set_jobs (shift_jobs (jobs s) i (job_count s - 1 - i))
                 (job_count s - 1) s
      else remove_job_from p s (S i) n'
  end.

Definition remove_job (p : Z) (s : shell) : shell :=
  remove_job_from p s 0 (job_count s).

Definition set_state_at (i : nat) (st : job_state_t) (s : shell) : shell :=
  let j := jobs s !!! i in
  set_jobs (<[i := Job (job_id j) (pid j) st (command j)]> (jobs s))
           (job_count s) s.

Definition update_job_state (p : Z) (st : job_state_t) (s : shell) : shell :=
  match find_job_by_pid p s with
  | Some i => set_state_at i st s
  | None => s
  end.

(** [list_jobs] *)
Definition state_str (st : job_state_t) : string :=
  match st with
  | RUNNING => "Running"
  | STOPPED => "Stopped"
  | DONE => "Done"
  end.

Definition job_row (j : job_t) : string :=
  "[" +:+ dec (job_id j) +:+ "]     " +:+ dec (pid j) +:+ "     "
      +:+ state_str (state j) +:+ "   " +:+ command j +:+ nl.

Fixpoint print_rows (js : list job_t) : M unit :=
  match js with
  | [] => mret tt
  | j :: rest => printf (job_row j);; print_rows rest
  end.

Definition list_jobs : M unit :=
  s ← get;
  if bool_decide (job_count s = 0%nat) then printf ("No jobs" +:+ nl)
  else
    printf (nl +:+ "Job ID  PID     State     Command" +:+ nl);;
    printf ("------  ------  --------  -------" +:+ nl);;
    print_rows (table s);;
    printf nl.

(** ** Foreground wait *)

Definition wait_for_fg (p : Z) : M unit :=
  modify (set_fg_pid p);;
  r ← waitpid_blocking p;
  match r with
  | WaitError e =>
      if bool_decide (e ≠ ECHILD) then perror "waitpid error" e else mret tt
  | WaitStatus _ => mret tt
  end;;
  modify (set_fg_pid 0).

(** ** [atoi]

    The C library function: optional white space, an optional sign, then
    the longest run of decimal digits; no digits give 0.  A value that
    does not fit [int] is undefined behaviour ([None]). *)

Definition isspace (c : ascii) : bool :=
  let n := nat_of_ascii c in
  bool_decide (n = 32%nat) || (bool_decide (9 ≤ n)%nat && bool_decide (n ≤ 13)%nat).

Definition digit_value (c : ascii) : option Z :=
  let n := Z.of_nat (nat_of_ascii c) in
  if bool_decide (48 ≤ n) && bool_decide (n ≤ 57) then Some (n - 48) else None.

Fixpoint skip_spaces (s : string) : string :=
  match s with
  | String c rest => if isspace c then skip_spaces rest else s
  | EmptyString => EmptyString
  end.

Fixpoint leading_digits (acc : Z) (s : string) : Z :=
  match s with
  | String c rest =>
      match digit_value c with
      | Some d => leading_digits (10 * acc + d) rest
      | None => acc
      end
  | EmptyString => acc
  end.

Definition signed_value (s : string) : Z :=
  match s with
  | String c rest =>
      if bool_decide (c = "-"%char) then - leading_digits 0 rest
      else if bool_decide (c = "+"%char) then leading_digits 0 rest
      else leading_digits 0 s
  | EmptyString => 0
  end.

Definition atoi (s : string) : option Z :=
  let v := signed_value (skip_spaces s) in
  if bool_decide (INT_MIN ≤ v) && bool_decide (v ≤ INT_MAX) then Some v else None.

(** ** Built-in commands *)

Definition job_not_found (id : Z) : string :=
  "Job [" +:+ dec id +:+ "] not found" +:+ nl.

Definition builtin_fg (id : Z) : M Z :=
  s ← get;
  match find_job_by_id id s with
  | None => printf (job_not_found id);; mret 1
  | Some i =>
      (if bool_decide (state (jobs s !!! i) = STOPPED)
       then kill (pid (jobs s !!! i)) SIGCONT else mret tt);;
      printf ("Bringing job [" +:+ dec id +:+ "] to foreground: "
                +:+ command (jobs s !!! i) +:+ nl);;
      wait_for_fg (pid (jobs s !!! i));;
      s' ← get;
      modify (remove_job (pid (jobs s' !!! i)));;
      mret 1
  end.

Definition builtin_bg (id : Z) : M Z :=
  s ← get;
  match find_job_by_id id s with
  | None => printf (job_not_found id);; mret 1
  | Some i =>
      (if bool_decide (state (jobs s !!! i) = STOPPED) then
         kill (pid (jobs s !!! i)) SIGCONT;;
         modify (set_state_at i RUNNING);;
         printf ("Job [" +:+ dec id +:+ "] continued in background: "
                   +:+ command (jobs s !!! i) +:+ nl)
       else
         printf ("Job [" +:+ dec id +:+ "] is already running" +:+ nl));;
      mret 1
  end.

Definition builtin_kill (id : Z) : M Z :=
  s ← get;
  match find_job_by_id id s with
  | None => printf (job_not_found id);; mret 1
  | Some i =>
      kill (pid (jobs s !!! i)) SIGKILL;;
      printf ("Job [" +:+ dec id +:+ "] terminated" +:+ nl);;
      mret 1
  end.

Definition help_text : list string :=
  [ nl +:+ "Available commands:" +:+ nl;
    "  <command> &     - Run command in background" +:+ nl;
    "  jobs            - List all jobs" +:+ nl;
    "  fg <job_id>     - Bring job to foreground" +:+ nl;
    "  bg <job_id>     - Continue stopped job in background" +:+ nl;
    "  kill <job_id>   - Terminate a job" +:+ nl;
    "  quit/exit       - Exit shell" +:+ nl;
    "  Ctrl+C          - Interrupt foreground job" +:+ nl;
    "  Ctrl+Z          - Suspend foreground job" +:+ nl +:+ nl ].

Fixpoint print_all (lines : list string) : M unit :=
  match lines with
  | [] => mret tt
  | l :: rest => printf l;; print_all rest
  end.

(** A built-in that takes a job id: [args[1] == NULL] gives the usage
    line, otherwise [atoi (args[1])] is handed to the command. *)
Definition with_job_id (name : string) (rest : list string) (body : Z → M Z) : M Z :=
  match rest with
  | [] => printf ("Usage: " +:+ name +:+ " <job_id>" +:+ nl);; mret 1
  | a1 :: _ =>
      match atoi a1 with
      | Some id => body id
      | None => undefined
      end
  end.

(** [args] is the NULL-terminated vector, without its NULL. *)
Definition builtin_command (args : list string) : M Z :=
  match args with
  | [] => mret 0
  | a0 :: rest =>
      if bool_decide (a0 = "quit") || bool_decide (a0 = "exit") then exit 0
      else if bool_decide (a0 = "jobs") then list_jobs;; mret 1
      else if bool_decide (a0 = "fg") then with_job_id "fg" rest builtin_fg
      else if bool_decide (a0 = "bg") then with_job_id "bg" rest builtin_bg
      else if bool_decide (a0 = "kill") then with_job_id "kill" rest builtin_kill
      else if bool_decide (a0 = "help") then print_all help_text;; mret 1
      else mret 0
  end.

(** ** Signal handlers *)

Definition reprompt : M unit := printf "shell> ";; emit Fflush.

(** The body of the loop of [sigchld_handler], for one [(pid, status)]
    returned by [waitpid (-1, &status, WNOHANG | WUNTRACED)]. *)
Definition reap (p : Z) (status : wstatus) : M unit :=
  s ← get;
  let job := find_job_by_pid p s in
  if WIFEXITED status || WIFSIGNALED status then
    match job with
    | Some i =>
        printf (nl +:+ "[" +:+ dec (job_id (jobs s !!! i)) +:+ "] Done: "
                   +:+ command (jobs s !!! i) +:+ nl);;
        reprompt;;
        modify (remove_job p)
    | None => mret tt
    end
  else if WIFSTOPPED status then
    match job with
    | Some i =>
        modify (update_job_state p STOPPED);;
        s' ← get;
        printf (nl +:+ "[" +:+ dec (job_id (jobs s' !!! i)) +:+ "] Stopped: "
                   +:+ command (jobs s' !!! i) +:+ nl);;
        reprompt
    | None =>
        add_job p "(foreground job)" STOPPED;;
        s' ← get;
        match job_count s' with
        | O => undefined
        | S last =>
            printf (nl +:+ "[" +:+ dec (job_id (jobs s' !!! last))
                       +:+ "] Stopped (use 'fg "
                       +:+ dec (job_id (jobs s' !!! last))
                       +:+ "' to resume)" +:+ nl);;
            reprompt
        end
    end
  else mret tt.

(** [reports] are the successive results of the non-blocking [waitpid];
    the loop ends at the first that is not positive, or when the kernel
    has nothing more to report. *)
Fixpoint sigchld_handler (reports : list (Z * wstatus)) : M unit :=
  match reports with
  | [] => mret tt
  | (p, status) :: rest =>
      if bool_decide (0 < p) then reap p status;; sigchld_handler rest
      else mret tt
  end.

Definition sigint_handler : M unit :=
  s ← get;
  (if bool_decide (0 < fg_pid s) then kill (fg_pid s) SIGINT else mret tt);;
  printf nl.

Definition sigtstp_handler : M unit :=
  s ← get;
  if bool_decide (0 < fg_pid s) then kill (fg_pid s) SIGTSTP else mret tt.

(** ** Launching a command *)

(** What the kernel answers to [fork] and, in the child, to [execvp]. *)
Record spawn := Spawn {
  fork_result : Z;
  fork_errno : errno_t;
  execvp_fails : bool
}.

(** The [strcat] loop that rebuilds the command text. *)
Fixpoint join_args (args : list string) : string :=
  match args with
  | [] => ""
  | a :: rest => a +:+ " " +:+ join_args rest
  end.

Definition execute_command (args : list string) (background : bool) (k : spawn) : M Z :=
  match args with
  | [] => mret 1
  | a0 :: _ =>
      if bool_decide (fork_result k < 0) then
        perror "fork error" (fork_errno k);; mret 0
      else if bool_decide (fork_result k = 0) then
        emit (SignalDfl SIGINT);;
        emit (SignalDfl SIGTSTP);;
        emit (SignalDfl SIGCHLD);;
        (if background then emit (Setpgid 0 0) else mret tt);;
        emit (Execvp args);;
        if execvp_fails k then
          printf ("Command not found: " +:+ a0 +:+ nl);; exit 1
        else replaced
      else
        (if background then
           let cmd := join_args args in
           if bool_decide (MAX_LINE ≤ String.length cmd)%nat then undefined
           else
             add_job (fork_result k) cmd RUNNING;;
             s ← get;
             match job_count s with
             | O => undefined
             | S last =>
                 printf ("[" +:+ dec (job_id (jobs s !!! last)) +:+ "] "
                            +:+ dec (fork_result k) +:+ " " +:+ cmd +:+ nl)
             end
         else wait_for_fg (fork_result k));;
        mret 1
  end.

(** ** Reading a line *)

Definition is_delim (c : ascii) : bool :=
  bool_decide (c = " "%char) || bool_decide (c = "009"%char).

(** The tokens [strtok (.., " \t")] returns in turn; [cur] is the token
    being read. *)
Fixpoint strtok (cur line : string) : list string :=
  match line with
  | EmptyString => if bool_decide (cur = "") then [] else [cur]
  | String c rest =>
      if is_delim c then
        if bool_decide (cur = "") then strtok "" rest else cur :: strtok "" rest
      else strtok (cur +:+ String c "") rest
  end.

Fixpoint collect_args (tokens : list string) (room : nat) : list string * bool :=
  match tokens, room with
  | tok :: rest, S room' =>
      if bool_decide (tok = "&") then ([], true)
      else let '(args, bg) := collect_args rest room' in (tok :: args, bg)
  | _, _ => ([], false)
  end.

Definition parse_command (line : string) : list string * bool :=
  collect_args (strtok "" line) (MAX_ARGS - 1).

(** [line[strcspn (line, "\n")] = 0] *)
Fixpoint chomp (line : string) : string :=
  match line with
  | EmptyString => EmptyString
  | String c rest => if bool_decide (c = "010"%char) then EmptyString
                     else String c (chomp rest)
  end.

(** ** The main loop *)

Definition init_shell : shell := Shell (replicate MAX_JOBS zero_job) 0 1 0.

Inductive input :=
| Eof
| ReadError
| Line (text : string).

Definition prompt : M unit := printf "shell> ";; emit Fflush.

(** From the return of [fgets] to the next call of [fgets]. *)
Definition main_iteration (inp : input) (k : spawn) : M unit :=
  match inp with
  | Eof => printf nl;; exit 0
  | ReadError => prompt
  | Line text =>
      let line := chomp text in
      if bool_decide (String.length line = 0%nat) then prompt
      else
        let '(args, background) := parse_command line in
        b ← builtin_command args;
        if bool_decide (b ≠ 0) then prompt
        else execute_command args background k;; prompt
  end.

(** Up to the first call of [fgets]. *)
Definition main_start : run unit :=
  (printf ("=== Unix Shell Job Scheduler ===" +:+ nl);;
   printf ("Type 'help' for available commands" +:+ nl +:+ nl);;
   prompt) init_shell [].

(** ** Signals

    [init_shell] installs the three handlers with [signal] and the
    program never blocks a signal: a handler may run while the shell
    sits in [fgets], while it is blocked in the [waitpid] of the
    foreground wait, and between any two statements of the main program.
    A delivery is the signal together with what the kernel then answers
    to the handler. *)

Inductive delivery :=
| Sigchld (reports : list (Z * wstatus))
| Sigint
| Sigtstp.

Definition handler (d : delivery) : M unit :=
  match d with
  | Sigchld reports => sigchld_handler reports
  | Sigint => sigint_handler
  | Sigtstp => sigtstp_handler
  end.

Fixpoint handlers (ds : list delivery) : M unit :=
  match ds with
  | [] => mret tt
  | d :: rest => handler d;; handlers rest
  end.

(** The functions above are the code run without a handler in the middle
    of it.  [interrupted stmts sigs] runs the statements [stmts] one after
    the other, each reading the globals afresh, and before statement
    number [n] the handlers of the deliveries [sigs !! n]. *)
Fixpoint interrupted (stmts : list (M unit)) (sigs : list (list delivery)) : M unit :=
  match stmts with
  | [] => mret tt
  | stmt :: rest =>
      handlers (default [] (head sigs));; stmt;; interrupted rest (tail sigs)
  end.

(** A store into a field of [jobs[job_count]]; outside the array the
    behaviour is undefined. *)
Definition slot_store (f : job_t → job_t) : M unit :=
  s ← get;
  if bool_decide (length (jobs s) ≤ job_count s)%nat then undefined
  else modify (λ s, set_jobs (<[job_count s := f (jobs s !!! job_count s)]> (jobs s))
                             (job_count s) s).

(** The five statements of [add_job] that follow its test of
    [job_count]. *)
Definition add_job_statements (p : Z) (cmd : string) (st : job_state_t) : list (M unit) :=
  [ (s ← get;
     if bool_decide (next_job_id s = INT_MAX) then undefined
     else
       slot_store (λ j, Job (next_job_id s) (pid j) (state j) (command j));;
       modify (λ s, Shell (jobs s) (job_count s) (next_job_id s + 1) (fg_pid s)));
    slot_store (λ j, Job (job_id j) p (state j) (command j));
    slot_store (λ j, Job (job_id j) (pid j) st (command j));
    slot_store (λ j, Job (job_id j) (pid j) (state j) (strncpy (MAX_LINE - 1) cmd));
    modify (λ s, set_jobs (jobs s) (S (job_count s)) s) ].

(** [add_job] with the handlers of [sigs] run between its statements:
    [sigs !! 0] after the test of [job_count], [sigs !! 1] after the
    assignment of the job id, and so on. *)
Definition add_job_interrupted (sigs : list (list delivery))
    (p : Z) (cmd : string) (st : job_state_t) : M unit :=
  s ← get;
  if bool_decide (MAX_JOBS ≤ job_count s)%nat then
    printf ("Job queue full" +:+ nl)
  else interrupted (add_job_statements p cmd st) sigs.

(** The three statements of [wait_for_fg]. *)
Definition wait_for_fg_statements (p : Z) : list (M unit) :=
  [ modify (set_fg_pid p);
    (r ← waitpid_blocking p;
     match r with
     | WaitError e =>
         if bool_decide (e ≠ ECHILD) then perror "waitpid error" e else mret tt
     | WaitStatus _ => mret tt
     end);
    modify (set_fg_pid 0) ].

(** * Vocabulary of the properties *)

(** ** Job ids of the table *)


(** ** Histories of the globals

    Every write the program makes to its globals is one of these five,
    when each call of a table function runs as a whole: the three table
    functions, the store [job->state = RUNNING] of [bg], and the
    assignments to [fg_pid]. *)




(** ** Properties of suspended computations

    [sat B Q m]: when [m] has returned, [Q] holds of its value and state;
    when it is blocked waiting for [p], [B p] holds of the state it
    exposes, and whatever state satisfying [B p] it is resumed in, the
    rest of the computation satisfies the same. *)

Fixpoint sat {A} (B : Z → shell → Prop) (Q : A → shell → Prop) (m : run A) : Prop :=
  match m with
  | Ret a s _ => Q a s
  | Blocked p s _ k => B p s ∧ ∀ r s' t', B p s' → sat B Q (k r s' t')
  | _ => True
  end.

(** A computation that never waits. *)
Definition no_wait (p : Z) (s : shell) : Prop := False.

(** The computation is blocked in the foreground wait, on [p]. *)
Definition in_wait {A} (c : run A) (p : Z) : Prop :=
  match c with Blocked p' _ _ _ => p' = p | _ => False end.

(** ** The foreground pid *)

(** [fg_pid] is 0; [fg_pid] is the pid waited for. *)
Definition fg_clear (s : shell) : Prop := fg_pid s = 0.
Definition fg_names (p : Z) (s : shell) : Prop := fg_pid s = p.

(** The same, in a table whose pids are all positive: the pid waited for
    is then positive too. *)
Definition positive_pids (s : shell) : Prop :=
  array_ok s ∧ Forall (λ j, 0 < pid j) (table s).
Definition fg_clear_positive (s : shell) : Prop := positive_pids s ∧ fg_pid s = 0.
Definition fg_names_positive (p : Z) (s : shell) : Prop :=
  positive_pids s ∧ fg_pid s = p ∧ 0 < p.

(** ** Job-id arguments *)

(** The built-ins that take a job id. *)
Definition job_commands : list string := ["fg"; "bg"; "kill"].

Definition is_digit (c : ascii) : bool := bool_decide (is_Some (digit_value c)).

Fixpoint all_digits (s : string) : bool :=
  match s with
  | EmptyString => true
  | String c rest => is_digit c && all_digits rest
  end.

(** A token that reads as a positive integer: a non-empty run of decimal
    digits whose value is positive. *)
Definition is_positive_integer (tok : string) : bool :=
  bool_decide (tok ≠ "") && all_digits tok && bool_decide (0 < leading_digits 0 tok).

Definition starts_with_digit (s : string) : bool :=
  match s with
  | String c _ => is_digit c
  | EmptyString => false
  end.

(** A token that begins, after optional white space and an optional sign,
    with a decimal numeral. *)
Definition has_numeral (tok : string) : bool :=
  match skip_spaces tok with
  | String c rest =>
      if bool_decide (c = "-"%char) || bool_decide (c = "+"%char)
      then starts_with_digit rest
      else is_digit c
  | EmptyString => false
  end.

(** The reading of a token that is not a positive integer as job id 0. *)
Definition read_as_job_zero (name tok : string) (s : shell) (t : list event) : Prop :=
  is_positive_integer tok = false →
  builtin_command [name; tok] s t =
    Ret 1 s (t ++ [Printf ("Job [" +:+ dec 0 +:+ "] not found" +:+ nl)]).

(** ** Reports of the foreground wait *)

(** What the foreground wait prints for a result of [waitpid]. *)
Definition wait_report (r : wait_result) : list event :=
  match r with
  | WaitError e => if bool_decide (e = ECHILD) then [] else [Perror "waitpid error" e]
  | WaitStatus _ => []
  end.

(** The process sent some signal to [p]. *)
Definition signalled (p : Z) (t : list event) : Prop := ∃ sig, Kill p sig ∈ t.

(** The notice for a foreground child that stopped. *)
Definition stop_notice (id : Z) : string :=
  nl +:+ "[" +:+ dec id +:+ "] Stopped (use 'fg " +:+ dec id +:+ "' to resume)" +:+ nl.

(** ** Example states *)

(** The globals with [entries] in the first slots of the array. *)
Definition shell_of (entries : list job_t) (next : Z) : shell :=
  Shell (entries ++ replicate (MAX_JOBS - length entries) zero_job)
        (length entries) next 0.

(** The state and the trace at the first prompt. *)
Definition start_state : shell :=
  match main_start with Ret _ s _ => s | _ => init_shell end.
Definition start_trace : list event :=
  match main_start with Ret _ _ t => t | _ => [] end.

Definition three_jobs : shell :=
  shell_of [Job 1 100 RUNNING "sleep 10 "; Job 2 200 STOPPED "(foreground job)";
            Job 4 300 RUNNING "sleep 30 "] 5.

Definition busy_job (n : nat) : job_t :=
  Job (Z.of_nat n) (1000 + Z.of_nat n) RUNNING "sleep 100 ".

(** A table with all its [MAX_JOBS] slots taken. *)
Definition full_shell : shell := shell_of (busy_job <$> seq 1 MAX_JOBS) 101.

(** One job, stopped by the user while it ran in the foreground. *)
Definition one_stopped : shell := shell_of [Job 1 100 STOPPED "(foreground job)"] 2.





(** ** Words and blank lines *)

Fixpoint has_delim (s : string) : bool :=
  match s with
  | EmptyString => false
  | String c rest => is_delim c || has_delim rest
  end.

(** What [strtok] returns: a non-empty string without separator. *)
Definition is_word (a : string) : Prop := a ≠ "" ∧ has_delim a = false.

(** A line of spaces and tabs only. *)
Fixpoint blank (s : string) : bool :=
  match s with
  | EmptyString => true
  | String c rest => is_delim c && blank rest
  end.

(** ** The life of the shell process *)

(** A computation that neither calls [exit] nor replaces the process
    image, whatever the foreground wait returns. *)
Fixpoint never_exits {A} (m : run A) : Prop :=
  match m with
  | Ret _ _ _ => True
  | Blocked _ _ _ k => ∀ r s t, never_exits (k r s t)
  | Exited _ _ => False
  | Replaced _ => False
  | Undef => True
  end.

(** The first word of a line is [quit] or [exit]. *)
Definition asks_to_quit (text : string) : Prop :=
  ∃ a rest, (parse_command (chomp text)).1 = a :: rest ∧ (a = "quit" ∨ a = "exit").

(** The inputs on which the main loop ends. *)
Definition asks_to_leave (inp : input) : Prop :=
  inp = Eof ∨ ∃ text, inp = Line text ∧ asks_to_quit text.

(** ** Launching *)

(** What the forked child does before its image is replaced. *)
Definition child_setup (args : list string) (background : bool) : list event :=
  [SignalDfl SIGINT; SignalDfl SIGTSTP; SignalDfl SIGCHLD]
    ++ (if background then [Setpgid 0 0] else []) ++ [Execvp args].

(** The line printed when a background job has been started. *)
Definition launch_notice (id p : Z) (cmd : string) : string :=
  "[" +:+ dec id +:+ "] " +:+ dec p +:+ " " +:+ cmd +:+ nl.

(** ** Notices of the drain *)

(** What the drain prints for a job whose process has terminated. *)
Definition done_notice (j : job_t) : list event :=
  [Printf (nl +:+ "[" +:+ dec (job_id j) +:+ "] Done: " +:+ command j +:+ nl);
   Printf "shell> "; Fflush].

Definition terminated (w : wstatus) : Prop := WIFEXITED w || WIFSIGNALED w = true.

(** ** Order of the table *)

(** Entries further down the table carry greater job ids. *)
Definition ordered_by_id (js : list job_t) : Prop :=
  ∀ i i' j j', (i < i')%nat → js !! i = Some j → js !! i' = Some j' →
               job_id j < job_id j'.

(** A table in the order of its job ids, whose ids are below the id
    counter and whose commands fit their buffers. *)
Definition kept (s : shell) : Prop :=
  array_ok s ∧
  Forall (λ j, job_id j < next_job_id s) (table s) ∧
  ordered_by_id (table s) ∧
  Forall (λ j, (String.length (command j) < MAX_LINE)%nat) (table s).

(** The array and the counters within their bounds, with positive pids
    and job ids from 1 on. *)
Definition within_bounds (s : shell) : Prop :=
  array_ok s ∧
  Forall (λ j, 0 < pid j ∧ 1 ≤ job_id j < next_job_id s) (table s) ∧
  1 ≤ next_job_id s ≤ INT_MAX.

(** ** Designating an entry *)

(** [j] is entry number [i] and no entry before it carries its key
    [f j]: the entry a lookup by that key finds. *)
Definition first_by (f : job_t → Z) (js : list job_t) (i : nat) (j : job_t) : Prop :=
  js !! i = Some j ∧ ∀ m j', (m < i)%nat → js !! m = Some j' → f j' ≠ f j.

(** The lines of the [jobs] listing. *)
Definition listing (js : list job_t) : list event :=
  match js with
  | [] => [Printf ("No jobs" +:+ nl)]
  | _ =>
      [Printf (nl +:+ "Job ID  PID     State     Command" +:+ nl);
       Printf ("------  ------  --------  -------" +:+ nl)]
        ++ (Printf ∘ job_row <$> js) ++ [Printf nl]
  end.

(** ** Dispatch *)

Definition builtin_names : list string :=
  ["quit"; "exit"; "jobs"; "fg"; "bg"; "kill"; "help"].

(** ** More example states *)

(** Two background jobs, as the first two of [launches] leave them. *)
Definition two_jobs : shell := shell_of [busy_job 1; busy_job 2] 3.

(** A launcher answer for a parent whose child is process 4242, one for a
    failed [fork], and one for the child itself when [execvp] fails. *)
Definition parent_of_4242 : spawn := Spawn 4242 EAGAIN false.
Definition fork_failed : spawn := Spawn (-1) EAGAIN false.
Definition child_failing : spawn := Spawn 0 EAGAIN true.

(** ** Two more invariants *)

(** No entry is marked Done. *)
Definition never_done (s : shell) : Prop :=
  array_ok s ∧ Forall (λ j, state j ≠ DONE) (table s).

(** No two entries carry the same pid. *)
Definition distinct_pids (s : shell) : Prop :=
  array_ok s ∧ NoDup (pid <$> table s).

(** The pid [p] is in no entry. *)
Definition unused_pid (p : Z) (s : shell) : Prop := p ∉ pid <$> table s.

(** * Properties

    ** The job table *)

Section table_lemmas.
Implicit Types (s : shell) (js : list job_t) (i k n m : nat) (p id : Z).

Lemma find_job_Some test js i n k :
  find_job test js i n = Some k →
  (i ≤ k < i + n)%nat ∧ test (js !!! k) = true ∧
  ∀ m, (i ≤ m < k)%nat → test (js !!! m) = false.
Proof.
  revert i. induction n as [|n IH]; intros i; simpl; [done|].
  destruct (test (js !!! i)) eqn:E.
  - intros [= <-]. split; [lia|]. split; [done|]. intros m ?; lia.
  - intros H. apply IH in H as (? & ? & Hm). split; [lia|]. split; [done|].
    intros m ?. destruct (decide (m = i)) as [->|]; [done|]. apply Hm; lia.
Qed.

Lemma find_job_None test js i n :
  find_job test js i n = None →
  ∀ m, (i ≤ m < i + n)%nat → test (js !!! m) = false.
Proof.
  revert i. induction n as [|n IH]; intros i; simpl; [intros _ m ?; lia|].
  destruct (test (js !!! i)) eqn:E; [done|].
  intros H m ?. destruct (decide (m = i)) as [->|]; [done|].
  apply (IH _ H); lia.
Qed.

Lemma table_length s : array_ok s → length (table s) = job_count s.
Proof. intros [Hl Hc]. unfold table. rewrite length_take. lia. Qed.

Lemma table_lookup s i :
  (i < job_count s)%nat → table s !! i = jobs s !! i.
Proof. intros. unfold table. by rewrite lookup_take_lt. Qed.

Lemma table_lookup_total s i x :
  array_ok s → table s !! i = Some x → (i < job_count s)%nat ∧ jobs s !!! i = x.
Proof.
  intros Hok H. assert (i < job_count s)%nat.
  { apply lookup_lt_Some in H. by rewrite table_length in H. }
  split; [done|]. rewrite table_lookup in H by done.
  by apply list_lookup_total_correct.
Qed.

Lemma slot_in_table s i :
  array_ok s → (i < job_count s)%nat → table s !! i = Some (jobs s !!! i).
Proof.
  intros [Hl Hc] Hi. rewrite table_lookup by done.
  apply list_lookup_lookup_total_lt. lia.
Qed.

Lemma find_job_by_pid_Some p s i :
  find_job_by_pid p s = Some i →
  (i < job_count s)%nat ∧ pid (jobs s !!! i) = p ∧
  ∀ m, (m < i)%nat → pid (jobs s !!! m) ≠ p.
Proof.
  intros H. apply find_job_Some in H as (? & Hi & Hm).
  apply bool_decide_eq_true in Hi. split; [lia|]. split; [done|].
  intros m ?. specialize (Hm m). rewrite bool_decide_eq_false in Hm.
  apply Hm. lia.
Qed.

Lemma find_job_by_pid_None p s :
  find_job_by_pid p s = None →
  ∀ m, (m < job_count s)%nat → pid (jobs s !!! m) ≠ p.
Proof.
  intros H m ?. apply find_job_None with (m := m) in H; [|lia].
  by apply bool_decide_eq_false in H.
Qed.

Lemma find_job_by_id_Some id s i :
  find_job_by_id id s = Some i →
  (i < job_count s)%nat ∧ job_id (jobs s !!! i) = id ∧
  ∀ m, (m < i)%nat → job_id (jobs s !!! m) ≠ id.
Proof.
  intros H. apply find_job_Some in H as (? & Hi & Hm).
  apply bool_decide_eq_true in Hi. split; [lia|]. split; [done|].
  intros m ?. specialize (Hm m). rewrite bool_decide_eq_false in Hm.
  apply Hm. lia.
Qed.

Lemma find_job_by_id_None id s :
  find_job_by_id id s = None →
  ∀ m, (m < job_count s)%nat → job_id (jobs s !!! m) ≠ id.
Proof.
  intros H m ?. apply find_job_None with (m := m) in H; [|lia].
  by apply bool_decide_eq_false in H.
Qed.

(** A lookup fails exactly when no entry of the table carries the key. *)
Lemma find_job_by_pid_absent p s :
  array_ok s → find_job_by_pid p s = None ↔ p ∉ pid <$> table s.
Proof.
  intros Hok. split.
  - intros H Hin. apply list_elem_of_fmap in Hin as (j & -> & Hj).
    apply list_elem_of_lookup in Hj as [m Hm].
    apply table_lookup_total in Hm as [? <-]; [|done].
    by eapply find_job_by_pid_None.
  - intros Hnot. destruct (find_job_by_pid p s) as [i|] eqn:E; [|done].
    apply find_job_by_pid_Some in E as (? & <- & _). destruct Hnot.
    apply list_elem_of_fmap. eexists. split; [done|].
    eapply list_elem_of_lookup_2, slot_in_table; done.
Qed.

Lemma find_job_by_id_absent id s :
  array_ok s → find_job_by_id id s = None ↔ id ∉ job_id <$> table s.
Proof.
  intros Hok. split.
  - intros H Hin. apply list_elem_of_fmap in Hin as (j & -> & Hj).
    apply list_elem_of_lookup in Hj as [m Hm].
    apply table_lookup_total in Hm as [? <-]; [|done].
    by eapply find_job_by_id_None.
  - intros Hnot. destruct (find_job_by_id id s) as [i|] eqn:E; [|done].
    apply find_job_by_id_Some in E as (? & <- & _). destruct Hnot.
    apply list_elem_of_fmap. eexists. split; [done|].
    eapply list_elem_of_lookup_2, slot_in_table; done.
Qed.

(** *** Removal *)

Lemma shift_jobs_length js i n : length (shift_jobs js i n) = length js.
Proof.
  revert js i. induction n as [|n IH]; intros js i; simpl; [done|].
  by rewrite IH, length_insert.
Qed.

Lemma shift_jobs_lookup js i n m :
  (i + n < length js)%nat →
  shift_jobs js i n !! m =
    if bool_decide (i ≤ m < i + n)%nat then js !! S m else js !! m.
Proof.
  revert js i. induction n as [|n IH]; intros js i Hlen; simpl.
  { rewrite bool_decide_eq_false_2 by lia. done. }
  rewrite IH by (rewrite length_insert; lia).
  destruct (decide (m = i)) as [->|Hne].
  - rewrite bool_decide_eq_false_2 by lia.
    rewrite bool_decide_eq_true_2 by lia.
    rewrite list_lookup_insert_eq by lia.
    symmetry. apply list_lookup_lookup_total_lt. lia.
  - case_bool_decide.
    + rewrite bool_decide_eq_true_2 by lia.
      by rewrite list_lookup_insert_ne by lia.
    + rewrite bool_decide_eq_false_2 by lia.
      by rewrite list_lookup_insert_ne by lia.
Qed.

Lemma remove_job_from_find p s i n :
  remove_job_from p s i n =
    match find_job (λ j, bool_decide (pid j = p)) (jobs s) i n with
    | Some k => set_jobs (shift_jobs (jobs s) k (job_count s - 1 - k))
                         (job_count s - 1) s
    | None => s
    end.
Proof.
  revert i. induction n as [|n IH]; intros i; simpl; [done|].
  case_bool_decide; [done|]. apply IH.
Qed.

Lemma remove_job_found p s i :
  find_job_by_pid p s = Some i →
  remove_job p s = set_jobs (shift_jobs (jobs s) i (job_count s - 1 - i))
                            (job_count s - 1) s.
Proof.
  intros H. unfold remove_job. rewrite remove_job_from_find.
  unfold find_job_by_pid in H. by rewrite H.
Qed.

Lemma remove_job_absent p s : find_job_by_pid p s = None → remove_job p s = s.
Proof.
  intros H. unfold remove_job. rewrite remove_job_from_find.
  unfold find_job_by_pid in H. by rewrite H.
Qed.

Lemma remove_job_table p s i :
  array_ok s → find_job_by_pid p s = Some i →
  table (remove_job p s) = delete i (table s).
Proof.
  intros [Hl Hc] H. rewrite (remove_job_found _ _ _ H).
  apply find_job_by_pid_Some in H as (Hi & _ & _).
  unfold table; simpl. apply list_eq; intros m.
  destruct (decide (m < job_count s - 1)%nat) as [Hm|Hm].
  - rewrite lookup_take_lt by done.
    rewrite shift_jobs_lookup by lia.
    destruct (decide (m < i)%nat).
    + rewrite bool_decide_eq_false_2 by lia.
      rewrite list_lookup_delete_lt by done. by rewrite lookup_take_lt by lia.
    + rewrite bool_decide_eq_true_2 by lia.
      rewrite list_lookup_delete_ge by lia. by rewrite lookup_take_lt by lia.
  - rewrite lookup_take_ge by lia. symmetry. apply lookup_ge_None.
    rewrite length_delete.
    + rewrite length_take. lia.
    + apply lookup_lt_is_Some. rewrite length_take. lia.
Qed.

Lemma remove_job_array_ok p s : array_ok s → array_ok (remove_job p s).
Proof.
  intros [Hl Hc]. destruct (find_job_by_pid p s) as [i|] eqn:E.
  - rewrite (remove_job_found _ _ _ E). split; simpl.
    + by rewrite shift_jobs_length.
    + lia.
  - by rewrite remove_job_absent.
Qed.

Lemma remove_job_counters p s :
  next_job_id (remove_job p s) = next_job_id s ∧
  fg_pid (remove_job p s) = fg_pid s.
Proof.
  destruct (find_job_by_pid p s) as [i|] eqn:E.
  - by rewrite (remove_job_found _ _ _ E).
  - by rewrite remove_job_absent.
Qed.

(** *** Insertion *)

Lemma add_job_full p cmd st s t :
  (MAX_JOBS ≤ job_count s)%nat →
  add_job p cmd st s t = Ret tt s (t ++ [Printf ("Job queue full" +:+ nl)]).
Proof.
  intros H. unfold add_job, mbind, M_bind, get; simpl.
  by rewrite bool_decide_eq_true_2.
Qed.

Lemma add_job_room p cmd st s t :
  (job_count s < MAX_JOBS)%nat → next_job_id s ≠ INT_MAX →
  add_job p cmd st s t = Ret tt (with_new_job p cmd st s) t.
Proof.
  intros H1 H2. unfold add_job, mbind, M_bind, get; simpl.
  rewrite bool_decide_eq_false_2 by lia.
  by rewrite bool_decide_eq_false_2.
Qed.

Lemma add_job_overflow p cmd st s t :
  (job_count s < MAX_JOBS)%nat → next_job_id s = INT_MAX →
  add_job p cmd st s t = Undef.
Proof.
  intros H1 H2. unfold add_job, mbind, M_bind, get; simpl.
  rewrite bool_decide_eq_false_2 by lia.
  by rewrite bool_decide_eq_true_2.
Qed.

(** The three outcomes of [add_job]. *)
Lemma add_job_cases p cmd st s t :
  ((MAX_JOBS ≤ job_count s)%nat ∧
   add_job p cmd st s t = Ret tt s (t ++ [Printf ("Job queue full" +:+ nl)])) ∨
  ((job_count s < MAX_JOBS)%nat ∧ next_job_id s ≠ INT_MAX ∧
   add_job p cmd st s t = Ret tt (with_new_job p cmd st s) t) ∨
  ((job_count s < MAX_JOBS)%nat ∧ next_job_id s = INT_MAX ∧
   add_job p cmd st s t = Undef).
Proof.
  destruct (decide (MAX_JOBS ≤ job_count s)%nat).
  - left. auto using add_job_full.
  - right. destruct (decide (next_job_id s = INT_MAX)).
    + right. split_and!; [lia|done|]. apply add_job_overflow; [lia|done].
    + left. split_and!; [lia|done|]. apply add_job_room; [lia|done].
Qed.

Lemma with_new_job_table p cmd st s :
  array_ok s → (job_count s < MAX_JOBS)%nat →
  table (with_new_job p cmd st s) = table s ++ [new_job p cmd st s].
Proof.
  intros [Hl Hc] Hroom. unfold table; simpl.
  rewrite (take_S_r _ _ (new_job p cmd st s)).
  - by rewrite take_insert_ge.
  - apply list_lookup_insert_eq. lia.
Qed.

Lemma with_new_job_array_ok p cmd st s :
  array_ok s → (job_count s < MAX_JOBS)%nat → array_ok (with_new_job p cmd st s).
Proof. intros [Hl Hc] ?. split; simpl; [by rewrite length_insert|lia]. Qed.

(** *** State changes *)

Lemma set_state_at_table i st s :
  array_ok s → (i < job_count s)%nat →
  table (set_state_at i st s) =
    <[i := Job (job_id (jobs s !!! i)) (pid (jobs s !!! i)) st
               (command (jobs s !!! i))]> (table s).
Proof. intros _ Hi. unfold table; simpl. by rewrite take_insert_lt. Qed.

Lemma set_state_at_array_ok i st s : array_ok s → array_ok (set_state_at i st s).
Proof. intros [Hl Hc]. split; simpl; [by rewrite length_insert|done]. Qed.

Lemma set_state_at_slot i st s m :
  array_ok s → (i < job_count s)%nat →
  job_id (jobs (set_state_at i st s) !!! m) = job_id (jobs s !!! m) ∧
  pid (jobs (set_state_at i st s) !!! m) = pid (jobs s !!! m) ∧
  command (jobs (set_state_at i st s) !!! m) = command (jobs s !!! m) ∧
  state (jobs (set_state_at i st s) !!! m) =
    if decide (m = i) then st else state (jobs s !!! m).
Proof.
  intros [Hl Hc] Hi. simpl. destruct (decide (m = i)) as [->|Hne].
  - rewrite list_lookup_total_insert_eq by lia. done.
  - rewrite list_lookup_total_insert_ne by done. done.
Qed.

Lemma set_state_at_keys (f : job_t → Z) i st s :
  (∀ j st', f (Job (job_id j) (pid j) st' (command j)) = f j) →
  array_ok s → (i < job_count s)%nat →
  f <$> table (set_state_at i st s) = f <$> table s.
Proof.
  intros Hf Hok Hi. rewrite set_state_at_table by done.
  rewrite list_fmap_insert, Hf. apply list_insert_id.
  rewrite list_lookup_fmap, slot_in_table by done. done.
Qed.


End table_lemmas.

(** ** Reasoning about computations *)

Section computations.
Context {A B : Type}.
Implicit Types (W : Z → shell → Prop).

Lemma bind_run (f : A → M B) (m : M A) s t : (m ≫= f) s t = run_bind f (m s t).
Proof. reflexivity. Qed.

Lemma sat_bind W (Q : A → shell → Prop) (Q' : B → shell → Prop) (f : A → M B) m :
  sat W Q m → (∀ a s t, Q a s → sat W Q' (f a s t)) → sat W Q' (run_bind f m).
Proof.
  intros Hm Hf. induction m as [a s t|p s t k IH| | |]; simpl in *; auto.
  destruct Hm as [Hw Hk]. split; [done|]. intros r s' t' Hs'. apply IH, Hk, Hs'.
Qed.

Lemma sat_no_wait W (Q : A → shell → Prop) m : sat no_wait Q m → sat W Q m.
Proof. destruct m; simpl; try done. by intros [[] _]. Qed.

Lemma sat_weaken W (Q Q' : A → shell → Prop) m :
  sat W Q m → (∀ a s, Q a s → Q' a s) → sat W Q' m.
Proof.
  intros Hm HQ. induction m as [a s t|p s t k IH| | |]; simpl in *; auto.
  destruct Hm as [Hw Hk]. split; [done|]. intros r s' t' Hs'. apply IH, Hk, Hs'.
Qed.

End computations.

Ltac run_step :=
  unfold mbind, M_bind, mret, M_ret, get, modify, emit, printf, perror, kill,
    reprompt, prompt, undefined, exit, replaced; simpl.

(** ** Runs of the simple functions *)

Section simple_runs.
Implicit Types (s : shell) (t : list event) (p : Z).

Lemma init_shell_ok : array_ok init_shell.
Proof. split; [reflexivity|]. unfold MAX_JOBS; simpl; lia. Qed.

Lemma print_rows_run js s t :
  print_rows js s t = Ret tt s (t ++ (Printf ∘ job_row <$> js)).
Proof.
  revert t. induction js as [|j js IH]; intros t; simpl.
  - by rewrite app_nil_r.
  - run_step. rewrite IH. by rewrite <-app_assoc.
Qed.

Lemma print_all_run lines s t :
  print_all lines s t = Ret tt s (t ++ (Printf <$> lines)).
Proof.
  revert t. induction lines as [|l lines IH]; intros t; simpl.
  - by rewrite app_nil_r.
  - run_step. rewrite IH. by rewrite <-app_assoc.
Qed.

Lemma list_jobs_run s t : ∃ t', list_jobs s t = Ret tt s t'.
Proof.
  unfold list_jobs. run_step. case_bool_decide; run_step; [by eexists|].
  rewrite print_rows_run. simpl. by eexists.
Qed.

Lemma prompt_run s t : prompt s t = Ret tt s (t ++ [Printf "shell> "; Fflush]).
Proof. unfold prompt. run_step. by rewrite <-app_assoc. Qed.

End simple_runs.

(** ** Properties kept by every operation

    [P] is a property of the globals between two operations and [W p] one
    of the globals while the shell waits for the child [p].  When the
    table functions keep [P], called as the program calls them, and the
    foreground wait leads from [P] to [W] and back, the handlers keep [P],
    and the built-ins, the launcher and a pass of the main loop started in
    [P] wait only in [W] and return in [P]: whatever the wait returns, and
    whatever state of [W] the handlers that run during the wait leave.
    The functions are taken as they run when no handler runs between two
    of their statements. *)
Section preserved.
Context (P : shell → Prop) (W : Z → shell → Prop) (F : Z → shell → Prop).
Hypothesis P_add : ∀ p cmd st s,
  P s → F p s → st ≠ DONE → (job_count s < MAX_JOBS)%nat →
  next_job_id s ≠ INT_MAX → P (with_new_job p cmd st s).
Hypothesis P_remove : ∀ p s, P s → P (remove_job p s).
Hypothesis P_store : ∀ i st s,
  P s → st ≠ DONE → (i < job_count s)%nat → P (set_state_at i st s).
Hypothesis F_absent : ∀ p s, P s → 0 < p → find_job_by_pid p s = None → F p s.
Hypothesis W_enter : ∀ p s,
  P s → (0 < p ∨ ∃ i, (i < job_count s)%nat ∧ pid (jobs s !!! i) = p) →
  W p (set_fg_pid p s).
Hypothesis W_leave : ∀ p s, W p s → P (set_fg_pid 0 s).
Implicit Types (s : shell) (t : list event).

Lemma add_job_preserves p cmd st s t :
  P s → F p s → st ≠ DONE → sat no_wait (λ _, P) (add_job p cmd st s t).
Proof.
  intros HP HF Hst.
  destruct (add_job_cases p cmd st s t) as [[? E]|[(? & ? & E)|(? & ? & E)]];
    rewrite E; [done| |done].
  by apply P_add.
Qed.

Lemma reap_preserves p w s t :
  P s → 0 < p → sat no_wait (λ _, P) (reap p w s t).
Proof.
  intros HP Hp. unfold reap. rewrite bind_run. unfold get at 1. simpl.
  destruct (WIFEXITED w || WIFSIGNALED w).
  { destruct (find_job_by_pid p s) as [i|]; run_step; [|done]. by apply P_remove. }
  destruct (WIFSTOPPED w); [|done].
  destruct (find_job_by_pid p s) as [i|] eqn:E.
  - run_step. unfold update_job_state. rewrite E.
    apply find_job_by_pid_Some in E as (Hi & _). by apply P_store.
  - rewrite bind_run. eapply sat_bind.
    + apply add_job_preserves; [done|by apply F_absent|done].
    + intros [] s' t' HP'. run_step. by destruct (job_count s').
Qed.

Lemma handler_preserves d s t : P s → sat no_wait (λ _, P) (handler d s t).
Proof.
  intros HP. destruct d as [reports| |]; simpl.
  - revert s t HP. induction reports as [|[p w] rest IH]; intros s t HP; simpl; [done|].
    case_bool_decide; [|done].
    rewrite bind_run. eapply sat_bind; [by apply reap_preserves|].
    intros [] s' t' HP'. by apply IH.
  - unfold sigint_handler. run_step. by case_bool_decide.
  - unfold sigtstp_handler. run_step. by case_bool_decide.
Qed.

Lemma handlers_preserve ds s t : P s → sat no_wait (λ _, P) (handlers ds s t).
Proof.
  revert s t. induction ds as [|d ds IH]; intros s t HP; simpl; [done|].
  rewrite bind_run. eapply sat_bind; [by apply handler_preserves|].
  intros [] s' t' HP'. by apply IH.
Qed.

Lemma wait_for_fg_preserves p s t :
  P s → (0 < p ∨ ∃ i, (i < job_count s)%nat ∧ pid (jobs s !!! i) = p) →
  sat W (λ _, P) (wait_for_fg p s t).
Proof.
  intros HP Hp. unfold wait_for_fg. run_step. split; [by apply W_enter|].
  intros r s' t' HW. destruct r as [w|e]; simpl; [|case_bool_decide; simpl];
    by eapply W_leave.
Qed.

Lemma builtin_command_preserves args s t :
  P s → sat W (λ _, P) (builtin_command args s t).
Proof.
  intros HP. unfold builtin_command. destruct args as [|a rest]; [done|].
  destruct (_ || _); [done|].
  assert (∀ name body,
    (∀ id s0 t0, P s0 → sat W (λ _, P) (body id s0 t0)) →
    sat W (λ _, P) (with_job_id name rest body s t)) as Hwith.
  { intros name body Hbody. unfold with_job_id. destruct rest as [|a1 ?]; [by run_step|].
    destruct (atoi a1); [by apply Hbody|done]. }
  destruct (bool_decide (a = "jobs")).
  { rewrite bind_run. destruct (list_jobs_run s t) as [t' ->]. done. }
  destruct (bool_decide (a = "fg")).
  { apply Hwith. intros id s0 t0 HP0. unfold builtin_fg.
    rewrite bind_run. unfold get at 1. simpl.
    destruct (find_job_by_id id s0) as [i|] eqn:E; [|by run_step].
    apply find_job_by_id_Some in E as (Hi & _).
    assert (W (pid (jobs s0 !!! i)) (set_fg_pid (pid (jobs s0 !!! i)) s0)) as HW.
    { apply W_enter; [done|]. right. by exists i. }
    case_bool_decide; run_step; (split; [exact HW|]);
      intros r s' t' HW'; (destruct r as [w|e]; run_step; [|case_bool_decide; run_step]);
      by eapply P_remove, W_leave. }
  destruct (bool_decide (a = "bg")).
  { apply Hwith. intros id s0 t0 HP0. unfold builtin_bg.
    rewrite bind_run. unfold get at 1. simpl.
    destruct (find_job_by_id id s0) as [i|] eqn:E; [|by run_step].
    apply find_job_by_id_Some in E as (Hi & _).
    case_bool_decide; run_step; [|done]. by apply P_store. }
  destruct (bool_decide (a = "kill")).
  { apply Hwith. intros id s0 t0 HP0. unfold builtin_kill.
    rewrite bind_run. unfold get at 1. simpl.
    by destruct (find_job_by_id id s0). }
  destruct (bool_decide (a = "help")); [|done].
  by rewrite bind_run, print_all_run.
Qed.

Lemma execute_command_preserves args background k s t :
  P s → (0 < fork_result k → F (fork_result k) s) →
  sat W (λ _, P) (execute_command args background k s t).
Proof.
  intros HP HF. unfold execute_command. destruct args as [|a0 rest]; [done|].
  case_bool_decide; [by run_step|].
  case_bool_decide.
  { destruct background, (execvp_fails k); by run_step. }
  assert (0 < fork_result k) as Hpid by lia.
  rewrite bind_run. apply sat_bind with (Q := λ _, P); [|by intros].
  destruct background; [|apply wait_for_fg_preserves; [done|by left]].
  case_bool_decide; [done|].
  rewrite bind_run. eapply sat_bind.
  - apply sat_no_wait, add_job_preserves; [done|by apply HF|done].
  - intros [] s' t' HP'. run_step. by destruct (job_count s').
Qed.

Lemma main_iteration_preserves inp k s t :
  P s → (∀ s', P s' → 0 < fork_result k → F (fork_result k) s') →
  sat W (λ _, P) (main_iteration inp k s t).
Proof.
  intros HP HF. unfold main_iteration. destruct inp as [| |text].
  - by run_step.
  - by rewrite prompt_run.
  - case_bool_decide; [by rewrite prompt_run|].
    destruct (parse_command (chomp text)) as [args background].
    rewrite bind_run. eapply sat_bind; [by apply builtin_command_preserves|].
    intros b s' t' HP'. case_bool_decide; [by rewrite prompt_run|].
    rewrite bind_run. eapply sat_bind.
    + apply execute_command_preserves; [done|by apply HF].
    + intros z s'' t'' HP''. by rewrite prompt_run.
Qed.

Lemma main_start_preserves : P init_shell → sat no_wait (λ _, P) main_start.
Proof. intros HP. unfold main_start. by run_step. Qed.

End preserved.


(** * The claims *)

(** ** Removal by pid *)

(** C9: for a pid present in the table, [remove_job] deletes exactly one
    entry, the first that carries the pid, and leaves the other entries in
    their order; for a pid that is not present it changes nothing. *)
Theorem remove_job_deletes_one_entry (s : shell) (p : Z) :
  array_ok s →
  (p ∈ (pid <$> table s) →
     ∃ before j after,
       table s = before ++ [j] ++ after ∧ pid j = p ∧ (p ∉ pid <$> before) ∧
       table (remove_job p s) = before ++ after) ∧
  (p ∉ (pid <$> table s) → remove_job p s = s).
Proof.
  intros Hok. split.
  - intros Hin. destruct (find_job_by_pid p s) as [i|] eqn:E.
    2: { by apply find_job_by_pid_absent in E. }
    pose proof (find_job_by_pid_Some _ _ _ E) as (Hi & Hp & Hfirst).
    exists (take i (table s)), (jobs s !!! i), (drop (S i) (table s)).
    split_and!.
    + symmetry. apply take_drop_middle. by apply slot_in_table.
    + done.
    + intros Hb. apply list_elem_of_fmap in Hb as (j & -> & Hj).
      apply list_elem_of_lookup in Hj as [m Hm].
      apply lookup_take_Some in Hm as [Hm Hlt].
      apply table_lookup_total in Hm as [_ <-]; [|done].
      by apply (Hfirst m).
    + rewrite (remove_job_table _ _ _ Hok E). apply delete_take_drop.
  - intros Hnot. apply remove_job_absent. by apply find_job_by_pid_absent.
Qed.

Lemma three_jobs_ok : array_ok three_jobs.
Proof. split; [reflexivity|]. unfold MAX_JOBS; simpl; lia. Qed.

Lemma remove_job_deletes_one_entry_witness :
  array_ok three_jobs ∧
  (200 ∈ (pid <$> table three_jobs) →
     ∃ before j after,
       table three_jobs = before ++ [j] ++ after ∧ pid j = 200 ∧
       (200 ∉ pid <$> before) ∧
       table (remove_job 200 three_jobs) = before ++ after) ∧
  (200 ∉ (pid <$> table three_jobs) → remove_job 200 three_jobs = three_jobs).
Proof.
  split; [exact three_jobs_ok|].
  apply (remove_job_deletes_one_entry three_jobs 200). exact three_jobs_ok.
Defined.

(** ** Job ids that designate no job *)

Lemma builtin_unknown_id name tok rest id s t :
  name ∈ job_commands → atoi tok = Some id → find_job_by_id id s = None →
  builtin_command (name :: tok :: rest) s t = Ret 1 s (t ++ [Printf (job_not_found id)]).
Proof.
  intros Hname Htok Hfind. unfold job_commands in Hname.
  repeat (apply elem_of_cons in Hname as [->|Hname]);
    [| | |by apply elem_of_nil in Hname];
    unfold builtin_command; simpl; unfold with_job_id; rewrite Htok;
    unfold builtin_fg, builtin_bg, builtin_kill; run_step; by rewrite Hfind.
Qed.

(** C8: [fg], [bg] and [kill] given a job id that no entry of the table
    carries print [Job [<id>] not found] and leave all the globals, the
    table and the next-id counter among them, as they were. *)
Theorem unknown_job_id_reports_not_found
    (name tok : string) (rest : list string) (id : Z) (s : shell) (t : list event) :
  name ∈ job_commands → array_ok s → atoi tok = Some id →
  id ∉ (job_id <$> table s) →
  builtin_command (name :: tok :: rest) s t =
    Ret 1 s (t ++ [Printf ("Job [" +:+ dec id +:+ "] not found" +:+ nl)]).
Proof.
  intros Hname Hok Htok Hid. apply builtin_unknown_id; [done..|].
  by apply find_job_by_id_absent.
Qed.

Lemma unknown_job_id_reports_not_found_witness :
  "kill" ∈ job_commands ∧ array_ok three_jobs ∧ atoi "3" = Some 3 ∧
(3 ∉ job_id <$> table three_jobs) ∧
  builtin_command ["kill"; "3"] three_jobs [] =
    Ret 1 three_jobs [Printf ("Job [" +:+ dec 3 +:+ "] not found" +:+ nl)].
Proof.
  assert ("kill" ∈ job_commands) as H1 by (unfold job_commands; set_solver).
  assert (3 ∉ (job_id <$> table three_jobs)) as H2.
  { apply find_job_by_id_absent; [exact three_jobs_ok|reflexivity]. }
  split_and!; [exact H1|exact three_jobs_ok|reflexivity|exact H2|].
  exact (unknown_job_id_reports_not_found "kill" "3" [] 3 three_jobs []
           H1 three_jobs_ok eq_refl H2).
Defined.

Lemma leading_digits_no_digit s : starts_with_digit s = false → leading_digits 0 s = 0.
Proof.
  destruct s as [|c rest]; simpl; [done|]. unfold is_digit.
  intros H. apply bool_decide_eq_false in H.
  destruct (digit_value c); [|done]. destruct H. by eexists.
Qed.

Lemma atoi_no_numeral tok : has_numeral tok = false → atoi tok = Some 0.
Proof.
  unfold has_numeral, atoi, signed_value.
  destruct (skip_spaces tok) as [|c rest]; [done|].
  destruct (bool_decide (c = "-"%char));
    [|destruct (bool_decide (c = "+"%char))]; cbn [orb]; intros H.
  - by rewrite (leading_digits_no_digit _ H).
  - by rewrite (leading_digits_no_digit _ H).
  - by rewrite (leading_digits_no_digit (String c rest) H).
Qed.

Lemma ids_from_one_absent s n :
  array_ok s → Forall (λ j, 1 ≤ job_id j) (table s) → n ≤ 0 →
  find_job_by_id n s = None.
Proof.
  intros Hok Hids Hn. apply find_job_by_id_absent; [done|].
  intros Hin. apply list_elem_of_fmap in Hin as (j & -> & Hj).
  rewrite Forall_forall in Hids. apply Hids in Hj. lia.
Qed.

(** C10 (amended): a [fg], [bg] or [kill] argument that does not begin
    with a numeral is read as job id 0, and in a table whose job ids are
    all at least 1 every argument read as a value [n <= 0] gets
    [Job [<n>] not found] and changes nothing. *)
Theorem job_id_argument_without_positive_value
    (name tok : string) (rest : list string) (s : shell) (t : list event) :
  name ∈ job_commands → array_ok s → Forall (λ j, 1 ≤ job_id j) (table s) →
  (has_numeral tok = false → atoi tok = Some 0) ∧
  (∀ n, atoi tok = Some n → n ≤ 0 →
        builtin_command (name :: tok :: rest) s t =
          Ret 1 s (t ++ [Printf ("Job [" +:+ dec n +:+ "] not found" +:+ nl)])).
Proof.
  intros Hname Hok Hids. split; [apply atoi_no_numeral|].
  intros n Htok Hn. apply builtin_unknown_id; [done..|].
  by apply ids_from_one_absent.
Qed.

Lemma three_jobs_ids_from_one : Forall (λ j, 1 ≤ job_id j) (table three_jobs).
Proof. repeat constructor; simpl; lia. Qed.

Lemma job_id_argument_without_positive_value_witness :
  "bg" ∈ job_commands ∧ array_ok three_jobs ∧
  Forall (λ j, 1 ≤ job_id j) (table three_jobs) ∧
  (has_numeral "abc" = false → atoi "abc" = Some 0) ∧
  (∀ n, atoi "abc" = Some n → n ≤ 0 →
        builtin_command ["bg"; "abc"] three_jobs [] =
          Ret 1 three_jobs
              ([] ++ [Printf ("Job [" +:+ dec n +:+ "] not found" +:+ nl)])).
Proof.
  assert ("bg" ∈ job_commands) as H1 by (unfold job_commands; set_solver).
  split_and!; [exact H1|exact three_jobs_ok|exact three_jobs_ids_from_one|..];
    apply (job_id_argument_without_positive_value "bg" "abc" [] three_jobs []
             H1 three_jobs_ok three_jobs_ids_from_one).
Defined.

(** C10, as stated, fails on ["-5"]: the token is not a positive integer,
    yet it is read as -5 and the report names job -5, not job 0. *)
Lemma negative_token_is_not_job_zero :
  is_positive_integer "-5" = false ∧
  builtin_command ["fg"; "-5"] start_state start_trace =
    Ret 1 start_state
        (start_trace ++ [Printf ("Job [" +:+ "-5" +:+ "] not found" +:+ nl)]) ∧
  ¬ read_as_job_zero "fg" "-5" start_state start_trace.
Proof.
  split; [reflexivity|]. split; [reflexivity|].
  intros H. specialize (H eq_refl). vm_compute in H. discriminate H.
Qed.

(** ** A full table *)

Lemma full_shell_ok : array_ok full_shell.
Proof. split; [reflexivity|]. unfold MAX_JOBS; simpl; lia. Qed.

(** C5 (amended): in the drain, a stopped status for a pid that has no
    entry, while the table has a free slot and the id counter is below
    INT_MAX, inserts the pid as a Stopped job labelled ["(foreground job)"]
    under the next job id and prints
    [[<job_id>] Stopped (use 'fg <job_id>' to resume)] with that id, then
    the prompt. *)
Theorem stopped_foreground_child_is_promoted
    (s : shell) (p sig : Z) (t : list event) :
  array_ok s → p ∉ (pid <$> table s) →
  (job_count s < MAX_JOBS)%nat → next_job_id s < INT_MAX →
  ∃ s',
    reap p (Wstopped sig) s t =
      Ret tt s' (t ++ [Printf (stop_notice (next_job_id s)); Printf "shell> "; Fflush]) ∧
    table s' = table s ++ [Job (next_job_id s) p STOPPED "(foreground job)"] ∧
    next_job_id s' = next_job_id s + 1.
Proof.
  intros Hok Hp Hroom Hnext. apply find_job_by_pid_absent in Hp; [|done].
  exists (with_new_job p "(foreground job)" STOPPED s). split_and!.
  - unfold reap. rewrite bind_run. unfold get at 1. simpl. rewrite Hp.
    rewrite bind_run, add_job_room by (done || lia). run_step.
    rewrite list_lookup_total_insert_eq by (destruct Hok; lia).
    run_step. by rewrite <-!app_assoc.
  - by rewrite with_new_job_table.
  - done.
Qed.

Lemma stopped_foreground_child_is_promoted_witness :
  array_ok three_jobs ∧ (777 ∉ pid <$> table three_jobs) ∧
  (job_count three_jobs < MAX_JOBS)%nat ∧ next_job_id three_jobs < INT_MAX ∧
  ∃ s',
    reap 777 (Wstopped 20) three_jobs [] =
      Ret tt s' ([] ++ [Printf (stop_notice (next_job_id three_jobs));
                        Printf "shell> "; Fflush]) ∧
    table s' = table three_jobs
                 ++ [Job (next_job_id three_jobs) 777 STOPPED "(foreground job)"] ∧
    next_job_id s' = next_job_id three_jobs + 1.
Proof.
  assert (777 ∉ pid <$> table three_jobs) as H1.
  { apply find_job_by_pid_absent; [exact three_jobs_ok|reflexivity]. }
  assert (job_count three_jobs < MAX_JOBS)%nat as H2 by (unfold MAX_JOBS; simpl; lia).
  assert (next_job_id three_jobs < INT_MAX) as H3 by reflexivity.
  split_and!; [exact three_jobs_ok|exact H1|exact H2|exact H3|].
  exact (stopped_foreground_child_is_promoted three_jobs 777 20 [] three_jobs_ok H1 H2 H3).
Defined.

(** C5, as stated, fails when the table is full: the pid is not inserted,
    and the notice carries the id of the last job of the table. *)
Lemma stop_with_full_table_is_not_promoted :
  (4242 ∉ pid <$> table full_shell) ∧
  reap 4242 (Wstopped 20) full_shell [] =
    Ret tt full_shell
      [Printf ("Job queue full" +:+ nl); Printf (stop_notice 100);
       Printf "shell> "; Fflush] ∧
  ¬ (∃ s' t', reap 4242 (Wstopped 20) full_shell [] = Ret tt s' t' ∧
              4242 ∈ (pid <$> table s')).
Proof.
  assert (4242 ∉ pid <$> table full_shell) as H.
  { apply find_job_by_pid_absent; [exact full_shell_ok|reflexivity]. }
  split; [exact H|]. split; [reflexivity|].
  intros (s' & t' & E & Hin). vm_compute in E. injection E as <- _. done.
Qed.

(** C3 (amended): a background spawn on a table that holds MAX_JOBS
    entries prints [Job queue full] and leaves the table, its size and the
    next-id counter as they were; all the parent does after that is print
    the launch notice: it sends no signal, to the child it has forked or
    to anything else. *)
Theorem background_spawn_on_full_table
    (args : list string) (k : spawn) (s : shell) (t : list event) :
  job_count s = MAX_JOBS → args ≠ [] → 0 < fork_result k →
  (String.length (join_args args) < MAX_LINE)%nat →
  ∃ t',
    execute_command args true k s t =
      Ret 1 s (t ++ [Printf ("Job queue full" +:+ nl)] ++ t') ∧
    t' = [Printf (launch_notice (job_id (jobs s !!! (MAX_JOBS - 1)%nat))
                                (fork_result k) (join_args args))] ∧
    ∀ target sig, Kill target sig ∉ t'.
Proof.
  intros Hfull Hargs Hpid Hlen. destruct args as [|a0 rest]; [done|].
  unfold execute_command.
  rewrite bool_decide_eq_false_2 by lia.
  rewrite bool_decide_eq_false_2 by lia.
  rewrite bool_decide_eq_false_2 by lia.
  rewrite !bind_run, add_job_full by lia. run_step. rewrite Hfull. simpl.
  eexists. split_and!.
  - by rewrite <-app_assoc.
  - done.
  - intros target sig Hin. apply list_elem_of_singleton in Hin. discriminate Hin.
Qed.

Lemma background_spawn_on_full_table_witness :
  job_count full_shell = MAX_JOBS ∧ ["sleep"; "30"] ≠ [] ∧
  0 < fork_result (Spawn 4242 EAGAIN false) ∧
  (String.length (join_args ["sleep"; "30"]) < MAX_LINE)%nat ∧
  ∃ t',
    execute_command ["sleep"; "30"] true (Spawn 4242 EAGAIN false) full_shell [] =
      Ret 1 full_shell ([] ++ [Printf ("Job queue full" +:+ nl)] ++ t') ∧
    t' = [Printf (launch_notice (job_id (jobs full_shell !!! (MAX_JOBS - 1)%nat))
                                (fork_result (Spawn 4242 EAGAIN false))
                                (join_args ["sleep"; "30"]))] ∧
    ∀ target sig, Kill target sig ∉ t'.
Proof.
  assert (["sleep"; "30"] ≠ ([] : list string)) as H1 by discriminate.
  assert (0 < fork_result (Spawn 4242 EAGAIN false)) as H2 by reflexivity.
  assert (String.length (join_args ["sleep"; "30"]) < MAX_LINE)%nat as H3
    by (unfold MAX_LINE; simpl; lia).
  split_and!; [reflexivity|exact H1|exact H2|exact H3|].
  exact (background_spawn_on_full_table ["sleep"; "30"] (Spawn 4242 EAGAIN false)
           full_shell [] eq_refl H1 H2 H3).
Defined.

(** C3, as stated, fails: on a full table the child 4242 receives no
    signal and is in no entry of the table. *)
Lemma full_table_child_is_left_running :
  job_count full_shell = MAX_JOBS ∧
  execute_command ["sleep"; "30"] true (Spawn 4242 EAGAIN false) full_shell [] =
    Ret 1 full_shell
      [Printf ("Job queue full" +:+ nl);
       Printf ("[100] 4242 sleep 30 " +:+ nl)] ∧
  ¬ signalled 4242 [Printf ("Job queue full" +:+ nl);
                    Printf ("[100] 4242 sleep 30 " +:+ nl)] ∧
  (4242 ∉ pid <$> table full_shell).
Proof.
  split; [reflexivity|]. split; [reflexivity|]. split.
  - intros [sig Hin]. rewrite !elem_of_cons in Hin.
    destruct Hin as [Hin|[Hin|Hin]]; [discriminate Hin..|by apply elem_of_nil in Hin].
  - apply find_job_by_pid_absent; [exact full_shell_ok|reflexivity].
Qed.

(** ** The foreground wait *)

(** C2 (amended): the foreground wait calls [waitpid] once; a "no child"
    result prints nothing, every other error, "interrupted" included, is
    reported with [perror ("waitpid error")]; in all cases the foreground
    pid is cleared and the function returns without waiting again. *)
Theorem wait_for_fg_single_wait (p : Z) (s : shell) (t : list event) :
  ∃ k,
    wait_for_fg p s t = Blocked p (set_fg_pid p s) t k ∧
    ∀ r s' t', k r s' t' = Ret tt (set_fg_pid 0 s') (t' ++ wait_report r).
Proof.
  eexists. split; [reflexivity|].
  intros [w|e] s' t'; simpl.
  - by rewrite app_nil_r.
  - destruct e; simpl; by rewrite ?app_nil_r.
Qed.

(** C2, as stated, fails: an interrupted wait is reported as an error and
    the function returns. *)
Lemma interrupted_wait_is_reported :
  match wait_for_fg 100 init_shell [] with
  | Blocked p s t k =>
      k (WaitError EINTR) s t = Ret tt init_shell [Perror "waitpid error" EINTR]
  | _ => False
  end.
Proof. reflexivity. Qed.

(** C1 fails on the code: [fg 1] on a stopped job whose wait returns
    because the child stopped again ends with the job removed from the
    table. *)
Theorem fg_drops_job_that_stops_again :
  match builtin_command ["fg"; "1"] one_stopped [] with
  | Blocked p s t k =>
      p = 100 ∧ table s = [Job 1 100 STOPPED "(foreground job)"] ∧
      ∃ s' t', k (WaitStatus (Wstopped 20)) s t = Ret 1 s' t' ∧ table s' = []
  | _ => False
  end.
Proof. simpl. split; [done|]. split; [done|]. by eexists _, _. Qed.

(** The other caller of the foreground wait: a command launched in the
    foreground that stops is promoted by the drain and stays in the table
    when the wait returns. *)
Example foreground_launch_keeps_job_that_stops :
  match execute_command ["sleep"; "60"] false (Spawn 100 EAGAIN false) init_shell [] with
  | Blocked p s t k =>
      match handler (Sigchld [(100, Wstopped 20)]) s t with
      | Ret _ s1 t1 =>
          ∃ s' t', k (WaitStatus (Wstopped 20)) s1 t1 = Ret 1 s' t' ∧
                   table s' = [Job 1 100 STOPPED "(foreground job)"]
      | _ => False
      end
  | _ => False
  end.
Proof. simpl. by eexists _, _. Qed.

Section round_trip.
Implicit Types (s : shell) (i : nat) (p id : Z).

Lemma find_job_unique (f : job_t → Z) s i j :
  array_ok s → NoDup (f <$> table s) → table s !! i = Some j →
  find_job (λ j', bool_decide (f j' = f j)) (jobs s) 0 (job_count s) = Some i.
Proof.
  intros Hok Hnd Hi.
  pose proof (table_lookup_total _ _ _ Hok Hi) as [Hlt Hslot].
  destruct (find_job _ _ _ _) as [k|] eqn:E.
  - apply find_job_Some in E as (Hk & Hf & _). apply bool_decide_eq_true in Hf.
    f_equal. eapply NoDup_lookup; [exact Hnd| |].
    + rewrite list_lookup_fmap, slot_in_table by (done || lia). simpl. by rewrite Hf.
    + by rewrite list_lookup_fmap, Hi.
  - apply find_job_None with (m := i) in E; [|lia].
    apply bool_decide_eq_false in E. by rewrite Hslot in E.
Qed.

Lemma builtin_bg_stopped id s i t :
  find_job_by_id id s = Some i → state (jobs s !!! i) = STOPPED →
  builtin_bg id s t =
    Ret 1 (set_state_at i RUNNING s)
      (t ++ [Kill (pid (jobs s !!! i)) SIGCONT;
             Printf ("Job [" +:+ dec id +:+ "] continued in background: "
                       +:+ command (jobs s !!! i) +:+ nl)]).
Proof.
  intros Hf Hst. unfold builtin_bg. rewrite bind_run. unfold get at 1. simpl.
  rewrite Hf, bool_decide_eq_true_2 by done. run_step. by rewrite <-app_assoc.
Qed.

Lemma reap_stopped_known p sig s i t :
  find_job_by_pid p s = Some i →
  ∃ t', reap p (Wstopped sig) s t = Ret tt (set_state_at i STOPPED s) t'.
Proof.
  intros Hf. unfold reap. rewrite bind_run. unfold get at 1. simpl.
  rewrite Hf. run_step. unfold update_job_state. rewrite Hf. by eexists.
Qed.

(** C6: for a Stopped job of a table whose job ids and pids are distinct,
    [bg <id>] makes it Running, reaping a stop notification for its pid
    makes it Stopped again, leaving the table as it was at first, and a
    second [bg <id>] makes it Running again; the job id, the pid and the
    command of the entry, and all the other entries, are the same
    throughout. *)
Theorem bg_stop_bg_round_trip
    (s : shell) (i : nat) (id p sig : Z) (cmd tok : string) (t : list event) :
  array_ok s → NoDup (job_id <$> table s) → NoDup (pid <$> table s) →
  table s !! i = Some (Job id p STOPPED cmd) → 0 < p → atoi tok = Some id →
  ∃ s1 t1 s2 t2 s3 t3,
    builtin_command ["bg"; tok] s t = Ret 1 s1 t1 ∧
    sigchld_handler [(p, Wstopped sig)] s1 t1 = Ret tt s2 t2 ∧
    builtin_command ["bg"; tok] s2 t2 = Ret 1 s3 t3 ∧
    table s1 = <[i := Job id p RUNNING cmd]> (table s) ∧
    table s2 = table s ∧
    table s3 = <[i := Job id p RUNNING cmd]> (table s).
Proof.
  intros Hok Hids Hpids Hi Hp Htok.
  pose proof (table_lookup_total _ _ _ Hok Hi) as [Hlt Hslot].
  assert (∀ s0 t0, builtin_command ["bg"; tok] s0 t0 = builtin_bg id s0 t0) as Hbg.
  { intros. unfold builtin_command, with_job_id. simpl. by rewrite Htok. }
  (* first bg *)
  assert (find_job_by_id id s = Some i) as Hfid
    by apply (find_job_unique job_id s i (Job id p STOPPED cmd) Hok Hids Hi).
  set (s1 := set_state_at i RUNNING s).
  assert (table s1 = <[i := Job id p RUNNING cmd]> (table s)) as Ht1.
  { unfold s1. rewrite set_state_at_table by done. by rewrite Hslot. }
  assert (array_ok s1) as Hok1 by by apply set_state_at_array_ok.
  (* the stop is reaped *)
  assert (table s1 !! i = Some (Job id p RUNNING cmd)) as Hi1.
  { rewrite Ht1. apply list_lookup_insert_eq. by eapply lookup_lt_Some. }
  assert (find_job_by_pid p s1 = Some i) as Hfpid.
  { apply (find_job_unique pid s1 i (Job id p RUNNING cmd) Hok1); [|done].
    unfold s1. by rewrite set_state_at_keys. }
  destruct (reap_stopped_known p sig s1 i (t ++ [Kill p SIGCONT;
             Printf ("Job [" +:+ dec id +:+ "] continued in background: "
                       +:+ cmd +:+ nl)]) Hfpid) as [t2 Hreap].
  set (s2 := set_state_at i STOPPED s1) in *.
  assert (job_count s1 = job_count s) as Hc1 by done.
  pose proof (table_lookup_total _ _ _ Hok1 Hi1) as [Hlt1 Hslot1].
  assert (table s2 = table s) as Ht2.
  { unfold s2. rewrite set_state_at_table by done. rewrite Hslot1, Ht1. simpl.
    rewrite list_insert_insert_eq. by apply list_insert_id. }
  assert (array_ok s2) as Hok2 by by apply set_state_at_array_ok.
  (* second bg *)
  assert (table s2 !! i = Some (Job id p STOPPED cmd)) as Hi2 by by rewrite Ht2.
  pose proof (table_lookup_total _ _ _ Hok2 Hi2) as [Hlt2 Hslot2].
  assert (find_job_by_id id s2 = Some i) as Hfid2.
  { apply (find_job_unique job_id s2 i (Job id p STOPPED cmd) Hok2); [|done].
    by rewrite Ht2. }
  eexists s1, _, s2, t2, (set_state_at i RUNNING s2), _. split_and!.
  - rewrite Hbg, (builtin_bg_stopped id s i) by (done || by rewrite Hslot).
    by rewrite Hslot.
  - simpl. rewrite bool_decide_eq_true_2 by done. rewrite bind_run, Hreap. done.
  - rewrite Hbg. apply builtin_bg_stopped; [done|by rewrite Hslot2].
  - done.
  - done.
  - rewrite set_state_at_table by done. by rewrite Hslot2, Ht2.
Qed.

End round_trip.

Lemma bg_stop_bg_round_trip_witness :
  array_ok three_jobs ∧ NoDup (job_id <$> table three_jobs) ∧
  NoDup (pid <$> table three_jobs) ∧
  table three_jobs !! 1%nat = Some (Job 2 200 STOPPED "(foreground job)") ∧
  0 < 200 ∧ atoi "2" = Some 2 ∧
  ∃ s1 t1 s2 t2 s3 t3,
    builtin_command ["bg"; "2"] three_jobs [] = Ret 1 s1 t1 ∧
    sigchld_handler [(200, Wstopped 20)] s1 t1 = Ret tt s2 t2 ∧
    builtin_command ["bg"; "2"] s2 t2 = Ret 1 s3 t3 ∧
    table s1 = <[1%nat := Job 2 200 RUNNING "(foreground job)"]> (table three_jobs) ∧
    table s2 = table three_jobs ∧
    table s3 = <[1%nat := Job 2 200 RUNNING "(foreground job)"]> (table three_jobs).
Proof.
  assert (NoDup (job_id <$> table three_jobs)) as H1 by (by apply (bool_decide_unpack _)).
  assert (NoDup (pid <$> table three_jobs)) as H2 by (by apply (bool_decide_unpack _)).
  split_and!; [exact three_jobs_ok|exact H1|exact H2|reflexivity|reflexivity|reflexivity|].
  exact (bg_stop_bg_round_trip three_jobs 1 2 200 20 "(foreground job)" "2" []
           three_jobs_ok H1 H2 eq_refl eq_refl eq_refl).
Defined.

(** ** Signals between statements *)

Section statements.
Implicit Types (s : shell) (t : list event) (p : Z).

(** Without a signal in between, the statements of the foreground wait
    and of [add_job] are the functions themselves. *)
Lemma wait_for_fg_uninterrupted p s t :
  interrupted (wait_for_fg_statements p) [] s t = wait_for_fg p s t.
Proof. reflexivity. Qed.

Lemma add_job_uninterrupted p cmd st s t :
  array_ok s → add_job_interrupted [] p cmd st s t = add_job p cmd st s t.
Proof.
  intros [Hlen Hcount].
  unfold add_job_interrupted, add_job, add_job_statements, slot_store,
    with_new_job, new_job.
  generalize (strncpy (MAX_LINE - 1) cmd). intros text. run_step.
  case_bool_decide as Hfull; [done|]. run_step.
  case_bool_decide as Hmax; [done|].
  repeat first
    [ rewrite length_insert
    | rewrite list_lookup_total_insert_eq by (rewrite ?length_insert; lia)
    | rewrite bool_decide_eq_false_2 by lia
    | progress simpl ].
  by rewrite !list_insert_insert_eq.
Qed.

End statements.

(** ** The foreground pid *)

Section foreground.
Implicit Types (s : shell) (t : list event) (p : Z).

Lemma handler_keeps_fg_pid d s t :
  sat no_wait (λ _ s', fg_pid s' = fg_pid s) (handler d s t).
Proof.
  apply (handler_preserves (λ s', fg_pid s' = fg_pid s) (λ _ _, True)); try done.
  intros p s' Hs'. by rewrite (proj2 (remove_job_counters p s')).
Qed.

Lemma handlers_keep_fg_pid ds s t :
  sat no_wait (λ _ s', fg_pid s' = fg_pid s) (handlers ds s t).
Proof.
  apply (handlers_preserve (λ s', fg_pid s' = fg_pid s) (λ _ _, True)); try done.
  intros p s' Hs'. by rewrite (proj2 (remove_job_counters p s')).
Qed.

Lemma main_iteration_fg_pid inp k s t :
  fg_clear s → sat fg_names (λ _, fg_clear) (main_iteration inp k s t).
Proof.
  intros Hs.
  apply (main_iteration_preserves fg_clear fg_names (λ _ _, True)); try done.
  intros p s' Hs'. unfold fg_clear. by rewrite (proj2 (remove_job_counters p s')).
Qed.

Lemma positive_pids_add p cmd st s :
  positive_pids s → 0 < p → (job_count s < MAX_JOBS)%nat →
  positive_pids (with_new_job p cmd st s).
Proof.
  intros [Hok Hpids] Hp Hroom. split; [by apply with_new_job_array_ok|].
  rewrite with_new_job_table by done. apply Forall_app. split; [done|].
  by apply Forall_singleton.
Qed.

Lemma positive_pids_remove p s : positive_pids s → positive_pids (remove_job p s).
Proof.
  intros [Hok Hpids]. split; [by apply remove_job_array_ok|].
  destruct (find_job_by_pid p s) as [i|] eqn:E;
    [|by rewrite remove_job_absent].
  rewrite (remove_job_table _ _ _ Hok E), delete_take_drop. apply Forall_app.
  split; [by apply Forall_take|by apply Forall_drop].
Qed.

Lemma positive_pids_store i st s :
  positive_pids s → (i < job_count s)%nat → positive_pids (set_state_at i st s).
Proof.
  intros [Hok Hpids] Hi. split; [by apply set_state_at_array_ok|].
  rewrite set_state_at_table by done. apply Forall_insert; [done|]. simpl.
  rewrite Forall_lookup in Hpids. apply (Hpids i). by apply slot_in_table.
Qed.

Lemma positive_pids_slot i s :
  positive_pids s → (i < job_count s)%nat → 0 < pid (jobs s !!! i).
Proof.
  intros [Hok Hpids] Hi. rewrite Forall_lookup in Hpids.
  apply (Hpids i). by apply slot_in_table.
Qed.

Lemma handler_keeps_positive_pids d s t :
  positive_pids s → sat no_wait (λ _, positive_pids) (handler d s t).
Proof.
  apply (handler_preserves positive_pids (λ p _, 0 < p));
    auto using positive_pids_add, positive_pids_remove, positive_pids_store.
Qed.

Lemma main_iteration_positive inp k s t :
  fg_clear_positive s →
  sat fg_names_positive (λ _, fg_clear_positive) (main_iteration inp k s t).
Proof.
  intros Hs.
  apply (main_iteration_preserves fg_clear_positive fg_names_positive (λ p _, 0 < p));
    try done.
  - intros p cmd st s' [Hpos Hfg] Hp _ Hroom _. split; [|done].
    by apply positive_pids_add.
  - intros p s' [Hpos Hfg]. split; [by apply positive_pids_remove|].
    by rewrite (proj2 (remove_job_counters p s')).
  - intros i st s' [Hpos Hfg] _ Hi. split; [|done]. by apply positive_pids_store.
  - intros p s' [Hpos Hfg] Hp. split_and!; [done|done|].
    destruct Hp as [Hp|(i & Hi & <-)]; [done|]. by apply positive_pids_slot.
  - intros p s' (Hpos & _ & _). by split.
Qed.

(** Whatever handlers run between the statements of the foreground wait,
    the shell blocks with [fg_pid] naming the child and returns with
    [fg_pid] cleared. *)
Lemma wait_for_fg_interrupted p sigs s t :
  sat fg_names (λ _, fg_clear) (interrupted (wait_for_fg_statements p) sigs s t).
Proof.
  unfold wait_for_fg_statements. cbn [interrupted].
  rewrite bind_run. eapply sat_bind; [apply sat_no_wait, handlers_keep_fg_pid|].
  intros [] s1 t1 _. rewrite bind_run. cbn [modify run_bind].
  rewrite bind_run. eapply sat_bind; [apply sat_no_wait, handlers_keep_fg_pid|].
  intros [] s2 t2 Hfg2. simpl in Hfg2.
  rewrite bind_run. unfold waitpid_blocking at 1. rewrite bind_run. cbn [run_bind].
  split; [exact Hfg2|].
  intros r s3 t3 _.
  assert (∀ s' t', sat fg_names (λ _ : unit, fg_clear)
            ((handlers (default [] (head (tail (tail sigs))));;
              modify (set_fg_pid 0);; mret tt) s' t')) as Hend.
  { intros s' t'. rewrite bind_run.
    eapply sat_bind; [apply sat_no_wait, handlers_keep_fg_pid|].
    intros [] s4 t4 _. reflexivity. }
  destruct r as [w|e]; simpl; [apply Hend|].
  case_bool_decide; simpl; apply Hend.
Qed.

(** C7 (amended): [fg_pid] is 0 at the first prompt; the handlers never
    change it, and they keep the pids of the table positive; a pass of
    the main loop entered with [fg_pid] 0 is blocked in the foreground
    wait only with [fg_pid] equal to the pid it waits for, which is
    positive when the pids of the table are, and comes back to the prompt
    with [fg_pid] 0, whatever the handlers did during the wait; and the
    foreground wait blocks with [fg_pid] naming its child and returns
    with [fg_pid] 0 whatever handlers run between its statements. *)
Theorem fg_pid_names_the_awaited_child :
  sat no_wait (λ _, fg_clear_positive) main_start ∧
  (∀ d s t, sat no_wait (λ _ s', fg_pid s' = fg_pid s) (handler d s t)) ∧
  (∀ d s t, positive_pids s → sat no_wait (λ _, positive_pids) (handler d s t)) ∧
  (∀ inp k s t, fg_clear s → sat fg_names (λ _, fg_clear) (main_iteration inp k s t)) ∧
  (∀ inp k s t, fg_clear_positive s →
     sat fg_names_positive (λ _, fg_clear_positive) (main_iteration inp k s t)) ∧
  (∀ p sigs s t,
     sat fg_names (λ _, fg_clear) (interrupted (wait_for_fg_statements p) sigs s t)).
Proof.
  split_and!.
  - apply main_start_preserves. split; [|done]. split; [apply init_shell_ok|constructor].
  - apply handler_keeps_fg_pid.
  - apply handler_keeps_positive_pids.
  - apply main_iteration_fg_pid.
  - apply main_iteration_positive.
  - apply wait_for_fg_interrupted.
Qed.

End foreground.

Lemma three_jobs_positive : fg_clear_positive three_jobs.
Proof.
  split; [|reflexivity]. split; [exact three_jobs_ok|].
  repeat constructor; simpl; lia.
Qed.

Lemma fg_pid_names_the_awaited_child_witness :
  positive_pids three_jobs ∧ fg_clear three_jobs ∧ fg_clear_positive three_jobs ∧
  sat no_wait (λ _, positive_pids)
      (handler (Sigchld [(200, Wexited 0)]) three_jobs []) ∧
  sat fg_names (λ _, fg_clear)
      (main_iteration (Line "fg 2") (Spawn 4242 EAGAIN false) three_jobs []) ∧
  sat fg_names_positive (λ _, fg_clear_positive)
      (main_iteration (Line "sleep 60") (Spawn 4242 EAGAIN false) three_jobs []).
Proof.
  assert (fg_clear three_jobs) as H by reflexivity.
  destruct fg_pid_names_the_awaited_child as (_ & _ & Hhandler & Hloop & Hpos & _).
  split_and!; [exact (proj1 three_jobs_positive)|exact H|exact three_jobs_positive|..].
  - exact (Hhandler (Sigchld [(200, Wexited 0)]) three_jobs [] (proj1 three_jobs_positive)).
  - exact (Hloop (Line "fg 2") (Spawn 4242 EAGAIN false) three_jobs [] H).
  - exact (Hpos (Line "sleep 60") (Spawn 4242 EAGAIN false) three_jobs []
             three_jobs_positive).
Defined.

(** C7, as stated, fails between two statements of the foreground wait:
    once [fg_pid = pid] has run, [fg_pid] is 100 although the shell is
    not blocked in [waitpid], and a SIGINT handled at that point is
    forwarded to process 100. *)
Lemma fg_pid_is_set_before_the_wait :
  ∃ first s1 resume,
    head (wait_for_fg_statements 100) = Some first ∧
    first start_state start_trace = Ret tt s1 start_trace ∧
    fg_pid s1 = 100 ∧
    ¬ (fg_pid s1 ≠ 0 ↔ ∃ p, in_wait (first start_state start_trace) p) ∧
    interrupted (wait_for_fg_statements 100) [[]; [Sigint]] start_state start_trace =
      Blocked 100 s1 (start_trace ++ [Kill 100 SIGINT; Printf nl]) resume.
Proof.
  eexists _, _, _. split_and!; [reflexivity|reflexivity|reflexivity| |reflexivity].
  intros [Hwait _]. destruct Hwait as [p Hp]; [done|]. exact Hp.
Qed.

(** ** Job ids *)

Section histories.
Implicit Types (s : shell) (id : Z).











End histories.








(** * Further properties of the code *)

(** ** Reading a line *)

Section parsing.
Implicit Types (cur line a : string) (tokens args : list string) (room : nat).

Lemma append_cons (c : ascii) a b : String c a +:+ b = String c (a +:+ b).
Proof. reflexivity. Qed.

Lemma append_nil a : a +:+ "" = a.
Proof. induction a as [|c a IH]; [done|]. by rewrite append_cons, IH. Qed.

Lemma append_assoc a b d : (a +:+ b) +:+ d = a +:+ (b +:+ d).
Proof. induction a as [|c a IH]; [done|]. by rewrite !append_cons, IH. Qed.

Lemma has_delim_app a b : has_delim (a +:+ b) = has_delim a || has_delim b.
Proof.
  induction a as [|c a IH]; [done|]. rewrite append_cons. simpl.
  rewrite IH. by rewrite orb_assoc.
Qed.

Lemma append_char_nonempty a (c : ascii) : a +:+ String c "" ≠ "".
Proof. by destruct a. Qed.

Lemma strtok_words cur line :
  has_delim cur = false → Forall is_word (strtok cur line).
Proof.
  revert cur. induction line as [|c rest IH]; intros cur Hcur; simpl.
  - case_bool_decide; [constructor|]. by repeat constructor.
  - destruct (is_delim c) eqn:Hc.
    + case_bool_decide; [by apply IH|].
      constructor; [done|by apply IH].
    + apply IH. rewrite has_delim_app. simpl. by rewrite Hcur, Hc.
Qed.

Lemma collect_args_prefix tokens room :
  ∃ n, (n ≤ room)%nat ∧ (collect_args tokens room).1 = take n tokens ∧
       "&" ∉ (collect_args tokens room).1.
Proof.
  revert room. induction tokens as [|tok rest IH]; intros room; simpl.
  { exists 0%nat. split_and!; [lia|by destruct room|destruct room; apply not_elem_of_nil]. }
  destruct room as [|room]; simpl.
  { exists 0%nat. split_and!; [lia|done|apply not_elem_of_nil]. }
  case_bool_decide as Htok; simpl.
  { exists 0%nat. split_and!; [lia|done|apply not_elem_of_nil]. }
  destruct (IH room) as (n & Hn & Htake & Hamp).
  destruct (collect_args rest room) as [args bg]; simpl in *.
  exists (S n). split_and!; [lia|by rewrite Htake|].
  apply not_elem_of_cons. split; [congruence|done].
Qed.

(** X1: whatever the line, [parse_command] fills at most MAX_ARGS - 1
    slots of [args], none of them with the background marker [&], each
    with a non-empty word free of spaces and tabs. *)
Theorem parse_command_args_are_words (line : string) :
  (length (parse_command line).1 ≤ MAX_ARGS - 1)%nat ∧
  ("&" ∉ (parse_command line).1) ∧
  Forall is_word (parse_command line).1.
Proof.
  unfold parse_command.
  destruct (collect_args_prefix (strtok "" line) (MAX_ARGS - 1))
    as (n & Hn & E & Hamp).
  split_and!; [|done|].
  - rewrite E, length_take. lia.
  - rewrite E. by apply Forall_take, strtok_words.
Qed.

Lemma collect_args_no_amp tokens room :
  "&" ∉ take room tokens → collect_args tokens room = (take room tokens, false).
Proof.
  revert room. induction tokens as [|tok rest IH]; intros room Hamp; simpl.
  { by destruct room. }
  destruct room as [|room]; simpl; [done|]. simpl in Hamp.
  apply not_elem_of_cons in Hamp as [Hne Hamp].
  rewrite bool_decide_eq_false_2 by congruence.
  by rewrite (IH room Hamp).
Qed.

Lemma collect_args_amp pre post room :
  "&" ∉ pre → (length pre < room)%nat →
  collect_args (pre ++ "&" :: post) room = (pre, true).
Proof.
  revert room. induction pre as [|tok pre IH]; intros room Hamp Hlen; simpl in *.
  { destruct room; [lia|]. reflexivity. }
  destruct room as [|room]; [lia|]. simpl.
  apply not_elem_of_cons in Hamp as [Hne Hamp].
  rewrite bool_decide_eq_false_2 by congruence.
  rewrite (IH room Hamp) by lia. done.
Qed.

(** X2: a line is marked background exactly by an [&] among its first
    MAX_ARGS - 1 tokens: the arguments are then the tokens before the
    first [&] and what follows it is dropped; without such a token the
    arguments are the first MAX_ARGS - 1 tokens and the command runs in
    the foreground (an [&] further to the right is not seen). *)
Theorem parse_command_background (line : string) :
  ("&" ∉ take (MAX_ARGS - 1) (strtok "" line) →
     parse_command line = (take (MAX_ARGS - 1) (strtok "" line), false)) ∧
  (∀ pre post,
     strtok "" line = pre ++ "&" :: post → "&" ∉ pre →
     (length pre < MAX_ARGS - 1)%nat →
     parse_command line = (pre, true)).
Proof.
  unfold parse_command. split.
  - apply collect_args_no_amp.
  - intros pre post -> ??. by apply collect_args_amp.
Qed.

Lemma strtok_word_prefix cur a rest :
  has_delim a = false → strtok cur (a +:+ rest) = strtok (cur +:+ a) rest.
Proof.
  revert cur. induction a as [|c a IH]; intros cur Ha.
  { by rewrite append_nil. }
  simpl in Ha. apply orb_false_iff in Ha as [Hc Ha].
  rewrite append_cons. simpl. rewrite Hc, (IH _ Ha).
  by rewrite append_assoc.
Qed.

Lemma strtok_join args :
  Forall is_word args → strtok "" (join_args args) = args.
Proof.
  induction 1 as [|a args [Hne Hd] _ IH]; [done|].
  change (join_args (a :: args)) with (a +:+ String " " (join_args args)).
  rewrite strtok_word_prefix by done.
  change ("" +:+ a) with a.
  cbn [strtok]. change (is_delim " ") with true. cbn match.
  rewrite bool_decide_eq_false_2 by done. by rewrite IH.
Qed.

(** X3: the command text the launcher rebuilds for a background job,
    every argument followed by a space, parses back to the same argument
    vector in the foreground mode. *)
Theorem parse_command_join_args (args : list string) :
  Forall is_word args → "&" ∉ args → (length args ≤ MAX_ARGS - 1)%nat →
  parse_command (join_args args) = (args, false).
Proof.
  intros Hw Hamp Hlen. unfold parse_command. rewrite strtok_join by done.
  rewrite collect_args_no_amp; rewrite take_ge by done; done.
Qed.

End parsing.

(** ** The main loop *)

Section main_loop.
Implicit Types (s : shell) (t : list event) (k : spawn).

Lemma strtok_blank line : blank line = true → strtok "" line = [].
Proof.
  induction line as [|c rest IH]; simpl; [done|].
  intros [Hc Hrest]%andb_true_iff. rewrite Hc. simpl. by apply IH.
Qed.

(** X4: a line of spaces and tabs only, the empty line included, changes
    none of the globals (the job-id counter among them), starts no
    process and prints nothing but the next prompt. *)
Theorem blank_line_is_ignored (text : string) k s t :
  blank (chomp text) = true →
  main_iteration (Line text) k s t = Ret tt s (t ++ [Printf "shell> "; Fflush]).
Proof.
  intros Hb. unfold main_iteration.
  case_bool_decide; [apply prompt_run|].
  unfold parse_command. rewrite strtok_blank by done. simpl.
  apply prompt_run.
Qed.

Lemma never_exits_bind {A B} (f : A → M B) (m : run A) :
  never_exits m → (∀ a s t, never_exits (f a s t)) → never_exits (run_bind f m).
Proof.
  intros Hm Hf. induction m as [a s t|p s t k0 IH| | |]; simpl in *; auto.
Qed.

Lemma add_job_never_exits p cmd st s t : never_exits (add_job p cmd st s t).
Proof.
  destruct (add_job_cases p cmd st s t) as [[? E]|[(? & ? & E)|(? & ? & E)]];
    by rewrite E.
Qed.

Lemma wait_for_fg_never_exits p s t : never_exits (wait_for_fg p s t).
Proof.
  unfold wait_for_fg. run_step. intros [w|e] s' t'; simpl; [done|].
  by case_bool_decide.
Qed.

Lemma builtin_command_never_exits a rest s t :
  a ≠ "quit" → a ≠ "exit" → never_exits (builtin_command (a :: rest) s t).
Proof.
  intros Hq He. unfold builtin_command.
  rewrite (bool_decide_eq_false_2 (a = "quit")), (bool_decide_eq_false_2 (a = "exit")) by done.
  cbn [orb].
  assert (∀ name body,
    (∀ id s0 t0, never_exits (body id s0 t0)) →
    never_exits (with_job_id name rest body s t)) as Hwith.
  { intros name body Hbody. unfold with_job_id. destruct rest as [|a1 ?]; [by run_step|].
    by destruct (atoi a1). }
  destruct (bool_decide (a = "jobs")).
  { rewrite bind_run. destruct (list_jobs_run s t) as [t' ->]. done. }
  destruct (bool_decide (a = "fg")).
  { apply Hwith. intros id s0 t0. unfold builtin_fg. rewrite bind_run. unfold get at 1. simpl.
    destruct (find_job_by_id id s0); [|by run_step].
    case_bool_decide; run_step; intros [w|e] s' t'; simpl; try done;
      by case_bool_decide. }
  destruct (bool_decide (a = "bg")).
  { apply Hwith. intros id s0 t0. unfold builtin_bg. rewrite bind_run. unfold get at 1. simpl.
    destruct (find_job_by_id id s0); [|by run_step]. by case_bool_decide. }
  destruct (bool_decide (a = "kill")).
  { apply Hwith. intros id s0 t0. unfold builtin_kill. rewrite bind_run. unfold get at 1. simpl.
    by destruct (find_job_by_id id s0). }
  destruct (bool_decide (a = "help")); [|done].
  by rewrite bind_run, print_all_run.
Qed.

Lemma execute_command_never_exits args background k s t :
  fork_result k ≠ 0 → never_exits (execute_command args background k s t).
Proof.
  intros Hparent. unfold execute_command. destruct args as [|a0 rest]; [done|].
  case_bool_decide; [by run_step|].
  rewrite bool_decide_eq_false_2 by done.
  rewrite bind_run. apply never_exits_bind; [|done].
  destruct background; [|apply wait_for_fg_never_exits].
  case_bool_decide; [done|].
  rewrite bind_run. apply never_exits_bind; [apply add_job_never_exits|].
  intros [] s' t'. run_step. by destruct (job_count s').
Qed.

(** X5: in the shell process itself an iteration of the main loop ends
    the process only at end of input or on a line whose first word is
    [quit] or [exit], then with status 0 and without signalling or waiting
    for any job; every other input, whatever the foreground wait returns,
    neither exits nor replaces the process. *)
Theorem shell_leaves_only_on_request (inp : input) k s t :
  fork_result k ≠ 0 →
  (asks_to_leave inp →
     main_iteration inp k s t =
       Exited 0 (t ++ match inp with Eof => [Printf nl] | _ => [] end)) ∧
  (¬ asks_to_leave inp → never_exits (main_iteration inp k s t)).
Proof.
  intros Hparent. destruct inp as [| |text].
  - split; [done|]. intros []. by left.
  - split.
    + intros [|(? & ? & _)]; done.
    + intros _. unfold main_iteration. by rewrite prompt_run.
  - unfold main_iteration, asks_to_leave, asks_to_quit.
    case_bool_decide as Hlen.
    { split; [|intros _; by rewrite prompt_run].
      intros [|(text' & [= <-] & a & rest & Hp & _)]; [done|].
      destruct (chomp text); [done|]. simpl in Hlen. lia. }
    destruct (parse_command (chomp text)) as [args background] eqn:Hparse.
    assert (∀ (b : Z) s0 t0, never_exits
      ((if bool_decide (b ≠ 0) then prompt
        else execute_command args background k;; prompt) s0 t0)) as Hrest.
    { intros b s0 t0. case_bool_decide; [by rewrite prompt_run|].
      rewrite bind_run. apply never_exits_bind; [by apply execute_command_never_exits|].
      intros ? s1 t1. by rewrite prompt_run. }
    destruct args as [|a rest].
    { split.
      - intros [|(text' & [= <-] & a & rest & Hp & _)]; [done|].
        by rewrite Hparse in Hp.
      - intros _. rewrite bind_run. exact (Hrest 0 s t). }
    destruct (decide (a = "quit" ∨ a = "exit")) as [Hq|Hq].
    + split.
      * intros _. rewrite bind_run. unfold builtin_command.
        assert (bool_decide (a = "quit") || bool_decide (a = "exit") = true) as ->.
        { destruct Hq as [->| ->]; reflexivity. }
        simpl. unfold exit. by rewrite app_nil_r.
      * intros []. right. exists text. split; [done|]. exists a, rest.
        by rewrite Hparse.
    + split.
      * intros [|(text' & [= <-] & a' & rest' & Hp & Ha)]; [done|].
        rewrite Hparse in Hp. simpl in Hp. by injection Hp as <- <-.
      * intros _. rewrite bind_run. apply never_exits_bind; [|apply Hrest].
        apply builtin_command_never_exits; naive_solver.
Qed.

End main_loop.


(** ** The launcher *)

Section launching.
Implicit Types (s : shell) (t : list event) (k : spawn) (args : list string).

Lemma strncpy_short n (src : string) :
  (String.length src ≤ n)%nat → strncpy n src = src.
Proof.
  revert n. induction src as [|c rest IH]; intros n Hn; [by destruct n|].
  destruct n as [|n]; simpl in *; [lia|]. rewrite IH by lia. done.
Qed.

Lemma strncpy_length n (src : string) : (String.length (strncpy n src) ≤ n)%nat.
Proof.
  revert src. induction n as [|n IH]; intros src; simpl; [lia|].
  destruct src; simpl; [lia|]. specialize (IH src). lia.
Qed.

Lemma fork_failure_run args (background : bool) k s t :
  args ≠ [] → fork_result k < 0 →
  execute_command args background k s t =
    Ret 0 s (t ++ [Perror "fork error" (fork_errno k)]).
Proof.
  intros Hargs Hfork. destruct args as [|a0 rest]; [done|].
  unfold execute_command. rewrite bool_decide_eq_true_2 by done. by run_step.
Qed.

(** X8: in the forked child the launcher restores the default action of
    SIGINT, SIGTSTP and SIGCHLD, moves the child into a process group of
    its own only for a background command, and calls [execvp]; when that
    fails the child prints [Command not found: <name>] and exits with
    status 1; it never returns into the shell's loop. *)
Theorem forked_child_execs (a0 : string) (rest : list string) (background : bool) k s t :
  fork_result k = 0 →
  execute_command (a0 :: rest) background k s t =
    if execvp_fails k
    then Exited 1 (t ++ child_setup (a0 :: rest) background
                     ++ [Printf ("Command not found: " +:+ a0 +:+ nl)])
    else Replaced (t ++ child_setup (a0 :: rest) background).
Proof.
  intros Hfork.
  unfold execute_command, child_setup.
  rewrite bool_decide_eq_false_2 by lia. rewrite bool_decide_eq_true_2 by done.
  destruct background, (execvp_fails k); run_step;
    by rewrite <-?app_assoc.
Qed.

(** X9: a background launch that finds a free slot appends one Running
    entry with the next job id, the child's pid and the rebuilt command
    text, advances the id counter by one, leaves [fg_pid] alone and prints
    [[<job_id>] <pid> <command>]. *)
Theorem background_launch_records_job args k s t :
  array_ok s → args ≠ [] → 0 < fork_result k →
  (String.length (join_args args) < MAX_LINE)%nat →
  (job_count s < MAX_JOBS)%nat → next_job_id s < INT_MAX →
  ∃ s',
    execute_command args true k s t =
      Ret 1 s' (t ++ [Printf (launch_notice (next_job_id s) (fork_result k)
                                (join_args args))]) ∧
    table s' = table s ++ [Job (next_job_id s) (fork_result k) RUNNING (join_args args)] ∧
    next_job_id s' = next_job_id s + 1 ∧
    fg_pid s' = fg_pid s.
Proof.
  intros Hok Hargs Hpid Hlen Hroom Hnext. destruct args as [|a0 rest]; [done|].
  exists (with_new_job (fork_result k) (join_args (a0 :: rest)) RUNNING s).
  split_and!; [| |done..].
  - unfold execute_command.
    rewrite !bool_decide_eq_false_2 by lia.
    rewrite !bind_run, add_job_room by (done || lia). run_step.
    rewrite list_lookup_total_insert_eq by (destruct Hok; lia). done.
  - rewrite with_new_job_table by done. unfold new_job.
    rewrite strncpy_short; [done|]. unfold MAX_LINE in *. lia.
Qed.

Lemma execute_foreground_run args k s t :
  args ≠ [] → 0 < fork_result k →
  ∃ resume,
    execute_command args false k s t =
      Blocked (fork_result k) (set_fg_pid (fork_result k) s) t resume ∧
    ∀ r s' t', resume r s' t' = Ret 1 (set_fg_pid 0 s') (t' ++ wait_report r).
Proof.
  intros Hargs Hpid. destruct args as [|a0 rest]; [done|].
  unfold execute_command. rewrite !bool_decide_eq_false_2 by lia.
  eexists. split; [reflexivity|].
  intros [w|e] s' t'; simpl; [by rewrite app_nil_r|].
  destruct e; simpl; by rewrite ?app_nil_r.
Qed.

(** X10: a command launched in the foreground makes the shell wait for
    the child with [fg_pid] set to its pid; whatever the wait returns, the
    launcher clears [fg_pid], reports a wait error other than "no child"
    and returns 1 without touching the table; when no handler has changed
    the globals meanwhile they are as before the launch. *)
Theorem foreground_launch_waits_for_child args k s t :
  args ≠ [] → 0 < fork_result k →
  ∃ resume,
    execute_command args false k s t =
      Blocked (fork_result k) (set_fg_pid (fork_result k) s) t resume ∧
    (∀ r s' t', resume r s' t' = Ret 1 (set_fg_pid 0 s') (t' ++ wait_report r)) ∧
    (fg_pid s = 0 →
     ∀ w, resume (WaitStatus w) (set_fg_pid (fork_result k) s) t = Ret 1 s t).
Proof.
  intros Hargs Hpid.
  destruct (execute_foreground_run args k s t Hargs Hpid) as (resume & Hrun & Hres).
  exists resume. split_and!; [done..|].
  intros Hfg w. rewrite Hres. simpl. rewrite app_nil_r.
  destruct s; simpl in *. by subst.
Qed.

End launching.

(** ** The drain and the keyboard signals *)

Section drain.
Implicit Types (s : shell) (t : list event) (js : list job_t) (p : Z).

Lemma filter_all {A} (P : A → Prop) `{!∀ x, Decision (P x)} (l : list A) :
  Forall P l → filter P l = l.
Proof.
  induction 1 as [|x l Hx _ IH]; [done|]. by rewrite filter_cons_True, IH.
Qed.

Lemma delete_is_filter (f : job_t → Z) js i j :
  NoDup (f <$> js) → js !! i = Some j →
  delete i js = filter (λ x, f x ≠ f j) js.
Proof.
  revert i. induction js as [|x js IH]; intros i Hnd Hi; [done|].
  rewrite fmap_cons in Hnd. apply NoDup_cons in Hnd as [Hx Hnd].
  destruct i as [|i]; simpl in Hi.
  - injection Hi as ->. rewrite filter_cons_False by naive_solver.
    simpl. symmetry. apply filter_all, Forall_forall. intros y Hy Heq.
    apply Hx. rewrite <-Heq. apply list_elem_of_fmap. by exists y.
  - assert (f x ≠ f j) as Hne.
    { intros Heq. apply Hx. rewrite Heq. apply list_elem_of_fmap.
      exists j. split; [done|]. by eapply list_elem_of_lookup_2. }
    rewrite filter_cons_True by done. simpl. by rewrite (IH i).
Qed.

Lemma find_job_by_pid_entry s i j :
  array_ok s → NoDup (pid <$> table s) → table s !! i = Some j →
  find_job_by_pid (pid j) s = Some i.
Proof. intros. by apply (find_job_unique pid s i j). Qed.

Lemma reap_terminated_known s i j w t :
  array_ok s → NoDup (pid <$> table s) → table s !! i = Some j → terminated w →
  reap (pid j) w s t = Ret tt (remove_job (pid j) s) (t ++ done_notice j) ∧
  table (remove_job (pid j) s) = filter (λ x, pid x ≠ pid j) (table s).
Proof.
  intros Hok Hnd Hi Hw.
  pose proof (find_job_by_pid_entry _ _ _ Hok Hnd Hi) as Hf.
  pose proof (table_lookup_total _ _ _ Hok Hi) as [_ Hslot].
  split.
  - unfold reap. rewrite bind_run. unfold get at 1. simpl.
    unfold terminated in Hw. rewrite Hw, Hf. run_step. rewrite Hslot.
    unfold done_notice. by rewrite <-!app_assoc.
  - rewrite (remove_job_table _ _ _ Hok Hf). by apply delete_is_filter.
Qed.

(** X13: when the drain is handed termination statuses for distinct jobs
    of a table with distinct pids, it prints one [[<id>] Done: <command>]
    notice, followed by the prompt, per job, in the order reported and
    with that job's id and command, and leaves exactly the entries whose
    pid was not reported, in their order; the id counter and [fg_pid] are
    unchanged. *)
Theorem drain_reports_each_terminated_job
    (status : job_t → wstatus) js s t :
  array_ok s → NoDup (pid <$> table s) →
  js ⊆ table s → NoDup (pid <$> js) →
  Forall (λ j, 0 < pid j ∧ terminated (status j)) js →
  ∃ s',
    sigchld_handler ((λ j, (pid j, status j)) <$> js) s t =
      Ret tt s' (t ++ mjoin (done_notice <$> js)) ∧
    table s' = filter (λ x, pid x ∉ pid <$> js) (table s) ∧
    next_job_id s' = next_job_id s ∧ fg_pid s' = fg_pid s.
Proof.
  intros Hok Hnd Hsub Hjs Hall. revert s t Hok Hnd Hsub.
  induction js as [|j js IH]; intros s t Hok Hnd Hsub.
  { exists s. simpl. rewrite app_nil_r. split_and!; try done.
    symmetry. apply filter_all, Forall_forall. intros x _. apply not_elem_of_nil. }
  rewrite fmap_cons in Hjs. apply NoDup_cons in Hjs as [Hj Hjs].
  apply Forall_cons in Hall as [[Hpos Hterm] Hall].
  assert (j ∈ table s) as Hin by (apply Hsub; left).
  apply list_elem_of_lookup in Hin as [i Hi].
  destruct (reap_terminated_known s i j (status j) t Hok Hnd Hi Hterm) as [Hreap Htab].
  destruct (IH Hjs Hall (remove_job (pid j) s) (t ++ done_notice j))
    as (s' & Hrun & Htab' & Hnext & Hfg).
  { by apply remove_job_array_ok. }
  { rewrite Htab. eapply sublist_NoDup; [exact Hnd|].
    apply fmap_sublist, sublist_filter. }
  { intros x Hx. rewrite Htab. apply list_elem_of_filter. split.
    - intros Heq. apply Hj. rewrite <-Heq. apply list_elem_of_fmap. by exists x.
    - apply Hsub. by right. }
  exists s'. split_and!.
  - rewrite !fmap_cons. cbn [sigchld_handler].
    rewrite bool_decide_eq_true_2 by done.
    rewrite bind_run, Hreap. cbn [run_bind]. rewrite Hrun.
    cbn [mjoin list_join]. by rewrite <-app_assoc.
  - rewrite Htab', Htab, list_filter_filter. apply list_filter_iff.
    intros x. rewrite fmap_cons, not_elem_of_cons. tauto.
  - rewrite Hnext. apply remove_job_counters.
  - rewrite Hfg. apply remove_job_counters.
Qed.

(** X12: a termination status for a pid that has no entry (the
    foreground child, left to the synchronous wait) makes the drain do
    nothing: no notice, no change of the globals. *)
Theorem termination_of_untracked_child_is_silent p w s t :
  array_ok s → p ∉ (pid <$> table s) → terminated w →
  reap p w s t = Ret tt s t.
Proof.
  intros Hok Hp Hw. apply find_job_by_pid_absent in Hp; [|done].
  unfold reap. rewrite bind_run. unfold get at 1. simpl.
  unfold terminated in Hw. by rewrite Hw, Hp.
Qed.

End drain.

Section signals.
Implicit Types (s : shell) (t : list event) (p : Z).



End signals.

(** ** Job ids as text *)

Section decimal.

Lemma digit_value_pretty_char (d : N) :
  (d < 10)%N → digit_value (pretty_N_char d) = Some (Z.of_N d).
Proof.
  intros Hd.
  assert (d = 0 ∨ d = 1 ∨ d = 2 ∨ d = 3 ∨ d = 4 ∨ d = 5 ∨ d = 6 ∨ d = 7
          ∨ d = 8 ∨ d = 9)%N as Hcases by lia.
  repeat (destruct Hcases as [->|Hcases]; [reflexivity|]). by subst.
Qed.

Lemma leading_digits_pretty_go (x : N) (rest : string) (acc : Z) :
  ∃ k : Z, 0 ≤ k ∧
    leading_digits acc (pretty_N_go x rest) =
      leading_digits (acc * 10 ^ k + Z.of_N x) rest.
Proof.
  revert rest. induction (N.lt_wf_0 x) as [x _ IH]; intros rest.
  destruct (decide (x = 0)%N) as [->|Hx].
  { exists 0. split; [lia|]. rewrite pretty_N_go_0. f_equal. lia. }
  rewrite pretty_N_go_step by lia.
  destruct (IH (x `div` 10)%N) with (rest := String (pretty_N_char (x `mod` 10)) rest)
    as (k & Hk & E).
  { apply N.div_lt; lia. }
  exists (k + 1). split; [lia|]. rewrite E. simpl.
  rewrite digit_value_pretty_char by (apply N.mod_lt; lia).
  f_equal. rewrite Z.pow_add_r by lia.
  rewrite (N.div_mod x 10) at 3 by lia.
  rewrite N2Z.inj_add, N2Z.inj_mul. simpl. lia.
Qed.

Lemma leading_digits_pretty_N (x : N) : leading_digits 0 (pretty x) = Z.of_N x.
Proof.
  unfold pretty, pretty_N. case_decide as Hx; [by subst|].
  destruct (leading_digits_pretty_go x "" 0) as (k & _ & ->). simpl. lia.
Qed.

Lemma pretty_go_starts_with_digit (x : N) (rest : string) :
  (0 < x)%N →
  ∃ d r, (d < 10)%N ∧ pretty_N_go x rest = String (pretty_N_char d) r.
Proof.
  revert rest. induction (N.lt_wf_0 x) as [x _ IH]; intros rest Hx.
  rewrite pretty_N_go_step by done.
  destruct (decide (x `div` 10 = 0)%N) as [E|E].
  - rewrite E, pretty_N_go_0. eexists _, _. split; [|done]. apply N.mod_lt; lia.
  - apply IH; [apply N.div_lt; lia|by apply N.neq_0_lt_0].
Qed.

Lemma pretty_positive_shape (x : positive) :
  ∃ d r, (d < 10)%N ∧ pretty x = String (pretty_N_char d) r.
Proof.
  unfold pretty, pretty_positive, pretty, pretty_N.
  rewrite decide_False by done. apply pretty_go_starts_with_digit. lia.
Qed.

Lemma digit_char_plain (d : N) :
  (d < 10)%N →
  isspace (pretty_N_char d) = false ∧ pretty_N_char d ≠ "-"%char ∧
  pretty_N_char d ≠ "+"%char.
Proof.
  intros Hd.
  assert (d = 0 ∨ d = 1 ∨ d = 2 ∨ d = 3 ∨ d = 4 ∨ d = 5 ∨ d = 6 ∨ d = 7
          ∨ d = 8 ∨ d = 9)%N as Hcases by lia.
  repeat (destruct Hcases as [->|Hcases]; [by split_and!|]). subst. by split_and!.
Qed.

Lemma signed_value_dec (n : Z) : signed_value (skip_spaces (dec n)) = n.
Proof.
  unfold dec. destruct n as [|x|x]; [done|..]; unfold pretty at 1, pretty_Z.
  - destruct (pretty_positive_shape x) as (d & r & Hd & E).
    destruct (digit_char_plain d Hd) as (Hsp & Hm & Hp).
    rewrite E. simpl. rewrite Hsp. unfold signed_value.
    rewrite !bool_decide_eq_false_2 by done. rewrite <-E.
    unfold pretty, pretty_positive. by rewrite leading_digits_pretty_N.
  - change ("-" +:+ pretty x) with (String "-" (pretty x)). simpl.
    unfold pretty, pretty_positive. rewrite leading_digits_pretty_N. done.
Qed.

Lemma atoi_dec (n : Z) : INT_MIN ≤ n ≤ INT_MAX → atoi (dec n) = Some n.
Proof.
  intros Hn. unfold atoi. rewrite signed_value_dec.
  by rewrite !bool_decide_eq_true_2 by lia.
Qed.

(** X16: [atoi] reads the decimal text that [%d] prints for an [int] back
    as the same number, so a job id shown in a notice or by [jobs] can be
    typed as the argument of [fg], [bg] and [kill]. *)
Theorem atoi_reads_back_printed_number (n : Z) :
  INT_MIN ≤ n ≤ INT_MAX → atoi (dec n) = Some n.
Proof.
  intros [Hlow Hhigh]. unfold atoi. rewrite signed_value_dec.
  rewrite (bool_decide_eq_true_2 (INT_MIN ≤ n)) by exact Hlow.
  rewrite (bool_decide_eq_true_2 (n ≤ INT_MAX)) by exact Hhigh.
  reflexivity.
Qed.

End decimal.

(** ** Built-ins on a job of the table *)

Section builtins.
Implicit Types (s : shell) (t : list event) (i : nat) (j : job_t).

Lemma find_job_first (f : job_t → Z) s i j :
  array_ok s → first_by f (table s) i j →
  find_job (λ j', bool_decide (f j' = f j)) (jobs s) 0 (job_count s) = Some i.
Proof.
  intros Hok [Hi Hfirst].
  pose proof (table_lookup_total _ _ _ Hok Hi) as [Hlt Hslot].
  destruct (find_job _ _ _ _) as [k|] eqn:E.
  - apply find_job_Some in E as (Hk & Hf & Hmin). apply bool_decide_eq_true in Hf.
    f_equal. destruct (decide (k < i)%nat) as [Hki|Hki].
    + destruct (Hfirst k (jobs s !!! k) Hki); [|done].
      apply slot_in_table; [done|lia].
    + destruct (decide (i < k)%nat) as [Hik|Hik]; [|lia].
      specialize (Hmin i ltac:(lia)). apply bool_decide_eq_false in Hmin.
      by rewrite Hslot in Hmin.
  - apply find_job_None with (m := i) in E; [|lia].
    apply bool_decide_eq_false in E. by rewrite Hslot in E.
Qed.

Lemma first_by_NoDup (f : job_t → Z) js i j :
  NoDup (f <$> js) → js !! i = Some j → first_by f js i j.
Proof.
  intros Hnd Hi. split; [done|]. intros m j' Hm Hj' Heq.
  assert (m = i); [|lia].
  eapply NoDup_lookup; [exact Hnd| |]; rewrite list_lookup_fmap.
  - by rewrite Hj'.
  - rewrite Hi. simpl. by rewrite Heq.
Qed.

Lemma entry_id_reads_back s i j :
  array_ok s → first_by job_id (table s) i j → INT_MIN ≤ job_id j ≤ INT_MAX →
  atoi (dec (job_id j)) = Some (job_id j) ∧ find_job_by_id (job_id j) s = Some i ∧
  jobs s !!! i = j.
Proof.
  intros Hok Hfirst Hint. split_and!.
  - by apply atoi_dec.
  - by apply (find_job_first job_id s i j).
  - by apply (table_lookup_total s i j Hok), Hfirst.
Qed.

Lemma with_job_id_entry name rest body s t j :
  INT_MIN ≤ job_id j ≤ INT_MAX →
  with_job_id name (dec (job_id j) :: rest) body s t = body (job_id j) s t.
Proof. intros Hint. unfold with_job_id. by rewrite atoi_dec. Qed.

(** X17: [kill] with the id of a job of the table, written as the shell
    prints it, acts on the first entry that carries this id: it sends
    SIGKILL to that entry's pid, prints [Job [<id>] terminated] and leaves
    the table as it is; the entry goes only when the drain reaps the
    process. *)
Theorem kill_signals_and_keeps_entry (rest : list string) s t i j :
  array_ok s → first_by job_id (table s) i j → INT_MIN ≤ job_id j ≤ INT_MAX →
  builtin_command ("kill" :: dec (job_id j) :: rest) s t =
    Ret 1 s (t ++ [Kill (pid j) SIGKILL;
                   Printf ("Job [" +:+ dec (job_id j) +:+ "] terminated" +:+ nl)]).
Proof.
  intros Hok Hi Hint.
  destruct (entry_id_reads_back s i j Hok Hi Hint) as (_ & Hf & Hslot).
  change (builtin_command ("kill" :: dec (job_id j) :: rest) s t)
    with (with_job_id "kill" (dec (job_id j) :: rest) builtin_kill s t).
  rewrite with_job_id_entry by done.
  unfold builtin_kill. run_step. rewrite Hf. run_step. rewrite Hslot.
  by rewrite <-app_assoc.
Qed.

(** X18: [bg] with the id of a job of the table acts on the first entry
    that carries this id; when that entry is not Stopped it sends no
    signal, changes nothing and prints [Job [<id>] is already running]. *)
Theorem bg_leaves_running_job_alone (rest : list string) s t i j :
  array_ok s → first_by job_id (table s) i j → INT_MIN ≤ job_id j ≤ INT_MAX →
  state j ≠ STOPPED →
  builtin_command ("bg" :: dec (job_id j) :: rest) s t =
    Ret 1 s (t ++ [Printf ("Job [" +:+ dec (job_id j) +:+ "] is already running" +:+ nl)]).
Proof.
  intros Hok Hi Hint Hst.
  destruct (entry_id_reads_back s i j Hok Hi Hint) as (_ & Hf & Hslot).
  change (builtin_command ("bg" :: dec (job_id j) :: rest) s t)
    with (with_job_id "bg" (dec (job_id j) :: rest) builtin_bg s t).
  rewrite with_job_id_entry by done.
  unfold builtin_bg. run_step. rewrite Hf. run_step. rewrite Hslot.
  by rewrite bool_decide_eq_false_2.
Qed.

Lemma builtin_fg_entry s t i j :
  find_job_by_id (job_id j) s = Some i → jobs s !!! i = j →
  ∃ resume,
    builtin_fg (job_id j) s t =
      Blocked (pid j) (set_fg_pid (pid j) s)
        (t ++ (if bool_decide (state j = STOPPED) then [Kill (pid j) SIGCONT] else [])
           ++ [Printf ("Bringing job [" +:+ dec (job_id j) +:+ "] to foreground: "
                         +:+ command j +:+ nl)])
        resume ∧
    ∀ r s' t',
      resume r s' t' =
        Ret 1 (remove_job (pid (jobs s' !!! i)) (set_fg_pid 0 s')) (t' ++ wait_report r).
Proof.
  intros Hf Hslot. unfold builtin_fg. rewrite bind_run. unfold get at 1. simpl.
  rewrite Hf, Hslot.
  case_bool_decide; run_step; (eexists; split; [by rewrite <-?app_assoc|]);
    intros [w|e] s' t'; simpl; rewrite ?app_nil_r; try done;
    destruct e; simpl; by rewrite ?app_nil_r.
Qed.

(** X19: [fg] on an entry that is the first of the table with its job id
    and the first with its pid sends it SIGCONT if and only if it is
    Stopped, prints the [Bringing job ...] line and waits for its pid;
    when the wait returns a termination status and no handler has run
    meanwhile, exactly that entry is deleted, the others keep their
    order, [fg_pid] is 0 again and the id counter is unchanged. *)
Theorem fg_removes_job_that_terminates (rest : list string) s t i j :
  array_ok s → first_by job_id (table s) i j → first_by pid (table s) i j →
  INT_MIN ≤ job_id j ≤ INT_MAX →
  ∃ resume t1,
    builtin_command ("fg" :: dec (job_id j) :: rest) s t =
      Blocked (pid j) (set_fg_pid (pid j) s) t1 resume ∧
    t1 = t ++ (if bool_decide (state j = STOPPED) then [Kill (pid j) SIGCONT] else [])
           ++ [Printf ("Bringing job [" +:+ dec (job_id j) +:+ "] to foreground: "
                         +:+ command j +:+ nl)] ∧
    ∀ w, terminated w →
      ∃ s',
        resume (WaitStatus w) (set_fg_pid (pid j) s) t1 = Ret 1 s' t1 ∧
        table s' = delete i (table s) ∧ fg_pid s' = 0 ∧
        next_job_id s' = next_job_id s.
Proof.
  intros Hok Hi Hpid Hint.
  destruct (entry_id_reads_back s i j Hok Hi Hint) as (_ & Hf & Hslot).
  change (builtin_command ("fg" :: dec (job_id j) :: rest) s t)
    with (with_job_id "fg" (dec (job_id j) :: rest) builtin_fg s t).
  rewrite with_job_id_entry by done.
  destruct (builtin_fg_entry s t i j Hf Hslot) as (resume & -> & Hres).
  eexists _, _. split_and!; [done..|].
  intros w _. rewrite Hres. simpl. rewrite app_nil_r, Hslot.
  eexists. split; [done|].
  assert (array_ok (set_fg_pid 0 (set_fg_pid (pid j) s))) as Hok' by apply Hok.
  assert (find_job_by_pid (pid j) (set_fg_pid 0 (set_fg_pid (pid j) s)) = Some i) as Hfp.
  { by apply (find_job_first pid _ i j Hok'). }
  split_and!.
  - by rewrite (remove_job_table _ _ _ Hok' Hfp).
  - by rewrite (proj2 (remove_job_counters _ _)).
  - by rewrite (proj1 (remove_job_counters _ _)).
Qed.

(** X20: [fg] keeps a pointer to the job's slot across the wait.  In a
    table with distinct pids, when the drain reaps the job's own
    termination during the wait, it removes the entry and shifts the next
    job into that slot; the wait then fails with "no child", and the
    removal [fg] performs on return takes the pid found in the slot: the
    next job of the table is removed as well. *)
Theorem fg_removes_the_job_in_its_slot (rest : list string) s t i a b w :
  array_ok s → NoDup (pid <$> table s) → first_by job_id (table s) i a →
  table s !! S i = Some b → 0 < pid a → INT_MIN ≤ job_id a ≤ INT_MAX →
  terminated w →
  ∃ resume t1 s2 t2 s3 t3,
    builtin_command ("fg" :: dec (job_id a) :: rest) s t =
      Blocked (pid a) (set_fg_pid (pid a) s) t1 resume ∧
    handler (Sigchld [(pid a, w)]) (set_fg_pid (pid a) s) t1 = Ret tt s2 t2 ∧
    table s2 = delete i (table s) ∧
    resume (WaitError ECHILD) s2 t2 = Ret 1 s3 t3 ∧
    table s3 = delete i (delete i (table s)) ∧
    b ∉ table s3.
Proof.
  intros Hok Hnd Hfirst Hb Hpos Hint Hw.
  pose proof (proj1 Hfirst) as Hi.
  destruct (entry_id_reads_back s i a Hok Hfirst Hint) as (_ & Hf & Hslot).
  change (builtin_command ("fg" :: dec (job_id a) :: rest) s t)
    with (with_job_id "fg" (dec (job_id a) :: rest) builtin_fg s t).
  rewrite with_job_id_entry by done.
  destruct (builtin_fg_entry s t i a Hf Hslot) as (resume & -> & Hres).
  set (s1 := set_fg_pid (pid a) s). set (t1 := t ++ _ ++ _).
  assert (array_ok s1) as Hok1 by apply Hok.
  destruct (reap_terminated_known s1 i a w t1 Hok1 Hnd Hi Hw) as [Hreap _].
  assert (find_job_by_pid (pid a) s1 = Some i) as Hfa
    by by apply (find_job_by_pid_entry s1 i a).
  set (s2 := remove_job (pid a) s1) in *.
  assert (table s2 = delete i (table s)) as Ht2
    by apply (remove_job_table _ _ _ Hok1 Hfa).
  assert (array_ok s2) as Hok2 by by apply remove_job_array_ok.
  assert (table s2 !! i = Some b) as Hb2.
  { rewrite Ht2, list_lookup_delete_ge by lia. done. }
  assert (NoDup (pid <$> table s2)) as Hnd2.
  { rewrite Ht2. eapply sublist_NoDup; [exact Hnd|].
    apply fmap_sublist, sublist_delete. }
  pose proof (table_lookup_total _ _ _ Hok2 Hb2) as [_ Hslot2].
  set (s2' := set_fg_pid 0 s2).
  assert (find_job_by_pid (pid b) s2' = Some i) as Hfb
    by by apply (find_job_by_pid_entry s2' i b).
  assert (table (remove_job (pid b) s2') = delete i (delete i (table s))) as Ht3.
  { rewrite (remove_job_table (pid b) s2' i Hok2 Hfb). by rewrite <-Ht2. }
  eexists resume, t1, s2, _, (remove_job (pid b) s2'), _. split_and!.
  - done.
  - simpl. rewrite bool_decide_eq_true_2 by done. rewrite bind_run, Hreap. done.
  - done.
  - rewrite Hres. by rewrite Hslot2.
  - done.
  - rewrite Ht3, <-Ht2. intros Hin.
    apply NoDup_fmap_1 in Hnd2.
    apply list_elem_of_lookup in Hin as [m Hm].
    destruct (decide (m < i)%nat).
    + rewrite list_lookup_delete_lt in Hm by done.
      pose proof (NoDup_lookup _ _ _ _ Hnd2 Hb2 Hm). lia.
    + rewrite list_lookup_delete_ge in Hm by lia.
      pose proof (NoDup_lookup _ _ _ _ Hnd2 Hb2 Hm). lia.
Qed.

End builtins.

(** ** Table operations *)

Section table_round_trips.
Implicit Types (s : shell) (t : list event) (i : nat) (j : job_t) (p : Z).

(** X21: inserting a pid that the table does not hold, when a slot is
    free, writes the entry in slot [job_count] with the next job id, the
    given state and the command cut to MAX_LINE - 1 characters; a lookup
    by that pid then finds this slot, and removing the pid gives back the
    table as it was before the insertion. *)
Theorem inserted_job_is_found_and_removable p (cmd : string) (st : job_state_t) s t :
  array_ok s → p ∉ (pid <$> table s) →
  (job_count s < MAX_JOBS)%nat → next_job_id s < INT_MAX →
  ∃ s',
    add_job p cmd st s t = Ret tt s' t ∧
    find_job_by_pid p s' = Some (job_count s) ∧
    jobs s' !!! job_count s = Job (next_job_id s) p st (strncpy (MAX_LINE - 1) cmd) ∧
    table (remove_job p s') = table s.
Proof.
  intros Hok Hp Hroom Hnext.
  exists (with_new_job p cmd st s).
  assert (array_ok (with_new_job p cmd st s)) as Hok' by by apply with_new_job_array_ok.
  assert (jobs (with_new_job p cmd st s) !!! job_count s = new_job p cmd st s) as Hslot.
  { simpl. apply list_lookup_total_insert_eq. destruct Hok. lia. }
  assert (find_job_by_pid p (with_new_job p cmd st s) = Some (job_count s)) as Hf.
  { destruct (find_job_by_pid p (with_new_job p cmd st s)) as [m|] eqn:E.
    - apply find_job_by_pid_Some in E as (Hm & Hpm & _). simpl in Hm.
      destruct (decide (m = job_count s)) as [->|Hne]; [done|].
      destruct Hp. apply list_elem_of_fmap. exists (jobs s !!! m).
      simpl in Hpm. rewrite list_lookup_total_insert_ne in Hpm by done.
      split; [done|]. eapply list_elem_of_lookup_2, slot_in_table; [done|lia].
    - apply find_job_by_pid_None with (m := job_count s) in E; [|simpl; lia].
      by rewrite Hslot in E. }
  split_and!; [apply add_job_room; [done|lia]|done|done|].
  rewrite (remove_job_table _ _ _ Hok' Hf), with_new_job_table by done.
  rewrite <-(table_length s Hok) at 1. by rewrite delete_middle, app_nil_r.
Qed.

(** X22: in a table with distinct pids, after [remove_job] a lookup by the
    removed pid fails, and the table is the old one without the entries
    of that pid. *)
Theorem removed_pid_is_no_longer_found p s :
  array_ok s → NoDup (pid <$> table s) →
  find_job_by_pid p (remove_job p s) = None ∧
  table (remove_job p s) = filter (λ j, pid j ≠ p) (table s).
Proof.
  intros Hok Hnd.
  assert (table (remove_job p s) = filter (λ j, pid j ≠ p) (table s)) as Ht.
  { destruct (find_job_by_pid p s) as [i|] eqn:E.
    - pose proof (find_job_by_pid_Some _ _ _ E) as (Hi & Hp & _).
      rewrite (remove_job_table _ _ _ Hok E).
      rewrite (delete_is_filter pid _ i (jobs s !!! i)); [by rewrite Hp|done|].
      by apply slot_in_table.
    - rewrite remove_job_absent by done. symmetry. apply filter_all, Forall_forall.
      intros j Hj Heq. apply find_job_by_pid_absent in E; [|done].
      apply E, list_elem_of_fmap. by exists j. }
  split; [|done].
  apply find_job_by_pid_absent; [by apply remove_job_array_ok|].
  rewrite Ht. intros (j & Hj & Hin)%list_elem_of_fmap.
  apply list_elem_of_filter in Hin as [Hne _]. done.
Qed.

(** X23: [update_job_state] changes nothing when the pid is unknown; for
    the pid of an entry of a table with distinct pids it replaces the
    state of that entry only: job id, pid, command, position, the other
    entries, the id counter and [fg_pid] stay. *)
Theorem update_job_state_touches_one_state p (st : job_state_t) s :
  array_ok s → NoDup (pid <$> table s) →
  (p ∉ (pid <$> table s) → update_job_state p st s = s) ∧
  (∀ i j, table s !! i = Some j → pid j = p →
     table (update_job_state p st s) =
       <[i := Job (job_id j) p st (command j)]> (table s) ∧
     next_job_id (update_job_state p st s) = next_job_id s ∧
     fg_pid (update_job_state p st s) = fg_pid s).
Proof.
  intros Hok Hnd. split.
  - intros Hp. apply find_job_by_pid_absent in Hp; [|done].
    unfold update_job_state. by rewrite Hp.
  - intros i j Hi <-.
    pose proof (find_job_by_pid_entry _ _ _ Hok Hnd Hi) as Hf.
    pose proof (table_lookup_total _ _ _ Hok Hi) as [Hlt Hslot].
    unfold update_job_state. rewrite Hf.
    split_and!; [|done..]. rewrite set_state_at_table by done. by rewrite Hslot.
Qed.

(** X24: [jobs] changes none of the globals; it prints [No jobs] for an
    empty table, and otherwise the two header lines, one row per entry in
    table order with its id, pid, state label and command, and an empty
    line. *)
Theorem list_jobs_prints_the_table s t :
  array_ok s → list_jobs s t = Ret tt s (t ++ listing (table s)).
Proof.
  intros Hok. unfold list_jobs. rewrite bind_run. unfold get at 1. simpl.
  pose proof (table_length s Hok) as Hlen.
  case_bool_decide as Hc.
  - destruct (table s); [by run_step|]. simpl in Hlen. lia.
  - run_step. rewrite print_rows_run. simpl.
    destruct (table s) as [|j js]; [simpl in Hlen; lia|].
    unfold listing, emit. by rewrite <-!app_assoc.
Qed.

End table_round_trips.

(** ** What the table keeps *)

Section order.
Implicit Types (s : shell) (t : list event) (i : nat) (j : job_t) (p : Z).

Lemma ordered_by_id_delete js i : ordered_by_id js → ordered_by_id (delete i js).
Proof.
  intros Ho a b j j' Hab Ha Hb.
  apply (Ho (if decide (a < i)%nat then a else S a)
            (if decide (b < i)%nat then b else S b) j j').
  - repeat case_decide; lia.
  - case_decide; [by rewrite list_lookup_delete_lt in Ha|].
    by rewrite list_lookup_delete_ge in Ha by lia.
  - case_decide; [by rewrite list_lookup_delete_lt in Hb|].
    by rewrite list_lookup_delete_ge in Hb by lia.
Qed.

Lemma init_shell_kept : kept init_shell.
Proof.
  split_and!; [apply init_shell_ok|constructor| |constructor].
  intros i i' j j' _ Hi. done.
Qed.

Lemma with_new_job_kept p cmd st s :
  kept s → (job_count s < MAX_JOBS)%nat → kept (with_new_job p cmd st s).
Proof.
  intros (Hok & Hlt & Hord & Hcmd) Hroom.
  split_and!; rewrite ?with_new_job_table by done.
  - by apply with_new_job_array_ok.
  - apply Forall_app. split.
    + eapply Forall_impl; [exact Hlt|]. unfold with_new_job; simpl. intros; lia.
    + apply Forall_singleton. unfold with_new_job; simpl. lia.
  - intros i i' j j' Hii Hi Hi'.
    pose proof (table_length s Hok) as Hlen.
    assert (i < length (table s))%nat as Hi_old.
    { apply lookup_lt_Some in Hi'. rewrite length_app in Hi'. simpl in Hi'. lia. }
    rewrite lookup_app_l in Hi by done.
    rewrite Forall_lookup in Hlt. pose proof (Hlt i j Hi) as Hj. simpl in Hj.
    destruct (decide (i' < length (table s))%nat).
    + rewrite lookup_app_l in Hi' by done. by apply (Hord i i').
    + rewrite lookup_app_r in Hi' by lia.
      destruct (i' - length (table s))%nat; [|done].
      injection Hi' as <-. done.
  - apply Forall_app. split; [done|]. apply Forall_singleton.
    unfold new_job. cbn [command].
    pose proof (strncpy_length (MAX_LINE - 1) cmd) as Hsl.
    assert (MAX_LINE = S (MAX_LINE - 1)) as Heq by reflexivity.
    rewrite Heq at 2. lia.
Qed.

Lemma remove_job_kept p s : kept s → kept (remove_job p s).
Proof.
  intros (Hok & Hlt & Hord & Hcmd).
  destruct (find_job_by_pid p s) as [i|] eqn:E;
    [|rewrite remove_job_absent by done; by split_and!].
  pose proof (remove_job_counters p s) as [Hnext _].
  split_and!; rewrite ?(remove_job_table _ _ _ Hok E), ?Hnext.
  - by apply remove_job_array_ok.
  - rewrite delete_take_drop. apply Forall_app.
    split; [by apply Forall_take|by apply Forall_drop].
  - by apply ordered_by_id_delete.
  - rewrite delete_take_drop. apply Forall_app.
    split; [by apply Forall_take|by apply Forall_drop].
Qed.

Lemma set_state_at_kept i st s : kept s → kept (set_state_at i st s).
Proof.
  intros (Hok & Hlt & Hord & Hcmd).
  destruct (decide (i < job_count s)%nat) as [Hi|Hi].
  - pose proof (slot_in_table s i Hok Hi) as Hslot.
    split_and!; rewrite ?set_state_at_table by done.
    + by apply set_state_at_array_ok.
    + apply Forall_insert; [done|]. simpl.
      rewrite Forall_lookup in Hlt. apply (Hlt i _ Hslot).
    + intros a b j j' Hab Ha Hb.
      assert (∀ m x, <[i:=Job (job_id (jobs s !!! i)) (pid (jobs s !!! i)) st
                          (command (jobs s !!! i))]> (table s) !! m = Some x →
                     ∃ y, table s !! m = Some y ∧ job_id y = job_id x) as Hsame.
      { intros m x Hm. destruct (decide (m = i)) as [->|Hne].
        - rewrite list_lookup_insert_eq in Hm by (by eapply lookup_lt_Some).
          injection Hm as <-. eauto.
        - rewrite list_lookup_insert_ne in Hm by done. eauto. }
      destruct (Hsame a j Ha) as (y & Hy & <-).
      destruct (Hsame b j' Hb) as (y' & Hy' & <-).
      by apply (Hord a b).
    + apply Forall_insert; [done|]. simpl.
      rewrite Forall_lookup in Hcmd. apply (Hcmd i _ Hslot).
  - assert (table (set_state_at i st s) = table s) as Ht.
    { unfold table; simpl. apply take_insert_ge. lia. }
    split_and!; rewrite ?Ht; try done. by apply set_state_at_array_ok.
Qed.

Lemma kept_fg p s : kept s → kept (set_fg_pid p s).
Proof. by intros (? & ? & ? & ?). Qed.

(** X25: the table is in increasing order of job id, with every id below
    the id counter and every stored command shorter than MAX_LINE, at the
    first prompt, and every signal handler and every pass of the main
    loop that starts with such a table, run with no handler between two
    of its statements other than during the foreground wait, has such a
    table whenever it is blocked in that wait and when it returns,
    whatever the handlers did during the wait: [jobs] lists in insertion
    order. *)
Theorem table_is_in_id_order :
  sat no_wait (λ _, kept) main_start ∧
  (∀ d s t, kept s → sat no_wait (λ _, kept) (handler d s t)) ∧
  (∀ inp k s t, kept s → sat (λ _, kept) (λ _, kept) (main_iteration inp k s t)).
Proof.
  split_and!.
  - apply main_start_preserves, init_shell_kept.
  - intros d s t. apply (handler_preserves kept (λ _ _, True));
      auto using with_new_job_kept, remove_job_kept, set_state_at_kept.
  - intros inp k s t Hs.
    apply (main_iteration_preserves kept (λ _, kept) (λ _ _, True));
      auto using with_new_job_kept, remove_job_kept, set_state_at_kept, kept_fg.
Qed.

Lemma within_bounds_add p cmd st s :
  within_bounds s → 0 < p → (job_count s < MAX_JOBS)%nat →
  next_job_id s ≠ INT_MAX → within_bounds (with_new_job p cmd st s).
Proof.
  intros (Hok & Hall & Hnext) Hp Hroom Hmax.
  split_and!; rewrite ?with_new_job_table by done.
  - by apply with_new_job_array_ok.
  - apply Forall_app. split.
    + eapply Forall_impl; [exact Hall|]. unfold with_new_job; simpl. intros j ?; lia.
    + apply Forall_singleton. unfold with_new_job; simpl. lia.
  - unfold with_new_job; simpl. lia.
  - unfold with_new_job; simpl. lia.
Qed.

Lemma within_bounds_remove p s : within_bounds s → within_bounds (remove_job p s).
Proof.
  intros Hs.
  destruct (find_job_by_pid p s) as [i|] eqn:E; [|by rewrite remove_job_absent].
  destruct Hs as (Hok & Hall & Hnext).
  pose proof (remove_job_counters p s) as [Hn _].
  split_and!; rewrite ?(remove_job_table _ _ _ Hok E), ?Hn; try apply Hnext.
  - by apply remove_job_array_ok.
  - rewrite delete_take_drop. apply Forall_app.
    split; [by apply Forall_take|by apply Forall_drop].
Qed.

Lemma within_bounds_store i st s :
  within_bounds s → (i < job_count s)%nat → within_bounds (set_state_at i st s).
Proof.
  intros (Hok & Hall & Hnext) Hi. split_and!; try apply Hnext.
  - by apply set_state_at_array_ok.
  - rewrite set_state_at_table by done. apply Forall_insert; [done|]. simpl.
    rewrite Forall_lookup in Hall. apply (Hall i). by apply slot_in_table.
Qed.

Lemma within_bounds_fg p s : within_bounds s → within_bounds (set_fg_pid p s).
Proof. by intros (? & ? & ?). Qed.

Lemma init_shell_within_bounds : within_bounds init_shell.
Proof. split_and!; [apply init_shell_ok|constructor|done|done]. Qed.

(** X26: the array has its MAX_JOBS slots, [job_count] is at most
    MAX_JOBS, every entry of the table has a positive pid and a job id
    from 1 up to below the id counter, and the id counter is between 1
    and INT_MAX, at the first prompt, and every signal handler and every
    pass of the main loop that starts in such a state, run with no
    handler between two of its statements other than during the
    foreground wait, is in such a state whenever it is blocked in that
    wait and when it returns. *)
Theorem table_stays_within_bounds :
  sat no_wait (λ _, within_bounds) main_start ∧
  (∀ d s t, within_bounds s → sat no_wait (λ _, within_bounds) (handler d s t)) ∧
  (∀ inp k s t, within_bounds s →
     sat (λ _, within_bounds) (λ _, within_bounds) (main_iteration inp k s t)).
Proof.
  split_and!.
  - apply main_start_preserves, init_shell_within_bounds.
  - intros d s t. apply (handler_preserves within_bounds (λ p _, 0 < p));
      auto using within_bounds_add, within_bounds_remove, within_bounds_store.
  - intros inp k s t Hs.
    apply (main_iteration_preserves within_bounds (λ _, within_bounds) (λ p _, 0 < p));
      auto using within_bounds_add, within_bounds_remove, within_bounds_store,
        within_bounds_fg.
Qed.

End order.

(** ** Launching, stopping, dispatching *)

Section composition.
Implicit Types (s : shell) (t : list event) (args : list string) (p : Z).

Lemma reap_promotes p sig s t :
  array_ok s → find_job_by_pid p s = None →
  (job_count s < MAX_JOBS)%nat → next_job_id s < INT_MAX →
  reap p (Wstopped sig) s t =
    Ret tt (with_new_job p "(foreground job)" STOPPED s)
      (t ++ [Printf (stop_notice (next_job_id s)); Printf "shell> "; Fflush]).
Proof.
  intros Hok Hp Hroom Hnext.
  unfold reap. rewrite bind_run. unfold get at 1. simpl. rewrite Hp.
  rewrite bind_run, add_job_room by (done || lia). run_step.
  rewrite list_lookup_total_insert_eq by (destruct Hok; lia).
  run_step. by rewrite <-!app_assoc.
Qed.

(** X11: a foreground command whose child is stopped becomes a job: the
    drain, run while the shell waits, inserts the child's pid as a Stopped
    entry labelled ["(foreground job)"] under the next job id and prints
    the stop notice and the prompt; when the wait then returns with the
    stopped status the launcher leaves that entry in the table and clears
    [fg_pid]. *)
Theorem suspended_foreground_command_becomes_job args (k : spawn) (sig : Z) s t :
  array_ok s → args ≠ [] → 0 < fork_result k →
  fork_result k ∉ (pid <$> table s) →
  (job_count s < MAX_JOBS)%nat → next_job_id s < INT_MAX →
  ∃ resume s1 t1 s2,
    execute_command args false k s t =
      Blocked (fork_result k) (set_fg_pid (fork_result k) s) t resume ∧
    handler (Sigchld [(fork_result k, Wstopped sig)])
            (set_fg_pid (fork_result k) s) t = Ret tt s1 t1 ∧
    t1 = t ++ [Printf (stop_notice (next_job_id s)); Printf "shell> "; Fflush] ∧
    resume (WaitStatus (Wstopped sig)) s1 t1 = Ret 1 s2 t1 ∧
    table s2 = table s ++ [Job (next_job_id s) (fork_result k) STOPPED "(foreground job)"] ∧
    fg_pid s2 = 0.
Proof.
  intros Hok Hargs Hpid Hp Hroom Hnext.
  destruct (execute_foreground_run args k s t Hargs Hpid)
    as (resume & Hrun & Hres).
  apply find_job_by_pid_absent in Hp; [|done].
  set (s0 := set_fg_pid (fork_result k) s).
  assert (array_ok s0) as Hok0 by done.
  pose proof (reap_promotes (fork_result k) sig s0 t Hok0 Hp Hroom Hnext) as Hreap.
  eexists resume, _, _, _. split_and!.
  - done.
  - simpl. rewrite bool_decide_eq_true_2 by done. rewrite bind_run, Hreap. done.
  - done.
  - rewrite Hres. simpl. by rewrite app_nil_r.
  - change (table (set_fg_pid 0 (with_new_job (fork_result k) "(foreground job)" STOPPED s0)))
      with (table (with_new_job (fork_result k) "(foreground job)" STOPPED s)).
    by rewrite with_new_job_table.
  - done.
Qed.

Lemma builtin_command_other (a : string) (rest : list string) s t :
  a ∉ builtin_names → builtin_command (a :: rest) s t = Ret 0 s t.
Proof.
  unfold builtin_names. rewrite !not_elem_of_cons. intros (?&?&?&?&?&?&?&_).
  unfold builtin_command. by rewrite !bool_decide_eq_false_2 by done.
Qed.

(** X6: a first word that is none of the seven built-in names makes
    [builtin_command] return 0 with nothing printed or changed, leaving
    the line to the launcher; [fg], [bg] and [kill] without an argument
    print their usage line, change nothing and return 1. *)
Theorem builtin_dispatch (a : string) (rest : list string) s t :
  (a ∉ builtin_names → builtin_command (a :: rest) s t = Ret 0 s t) ∧
  (a ∈ job_commands →
   builtin_command [a] s t =
     Ret 1 s (t ++ [Printf ("Usage: " +:+ a +:+ " <job_id>" +:+ nl)])).
Proof.
  split; [apply builtin_command_other|].
  unfold job_commands. rewrite !elem_of_cons, elem_of_nil.
  intros [->|[->|[->|[]]]]; reflexivity.
Qed.

(** X7: when [fork] fails for a line that is not a built-in, the shell
    reports [fork error] with the OS error, changes none of its globals
    and prints the next prompt. *)
Theorem failed_fork_returns_to_prompt
    (text a : string) (rest : list string) (background : bool) (k : spawn) s t :
  parse_command (chomp text) = (a :: rest, background) →
  a ∉ builtin_names → fork_result k < 0 →
  main_iteration (Line text) k s t =
    Ret tt s (t ++ [Perror "fork error" (fork_errno k); Printf "shell> "; Fflush]).
Proof.
  intros Hparse Ha Hfork. unfold main_iteration.
  case_bool_decide as Hlen.
  { destruct (chomp text); [by vm_compute in Hparse|]. simpl in Hlen. lia. }
  rewrite Hparse, bind_run, builtin_command_other by done. cbn [run_bind].
  rewrite bool_decide_eq_false_2 by lia.
  rewrite bind_run, fork_failure_run by done. cbn [run_bind].
  rewrite prompt_run. by rewrite <-app_assoc.
Qed.

End composition.

(** ** Two more properties kept by every operation *)

Section two_invariants.
Implicit Types (s : shell) (t : list event) (p : Z).

Lemma never_done_add p cmd st s :
  never_done s → st ≠ DONE → (job_count s < MAX_JOBS)%nat →
  never_done (with_new_job p cmd st s).
Proof.
  intros [Hok Hst] Hne Hroom. split; [by apply with_new_job_array_ok|].
  rewrite with_new_job_table by done. apply Forall_app. split; [done|].
  by apply Forall_singleton.
Qed.

Lemma never_done_remove p s : never_done s → never_done (remove_job p s).
Proof.
  intros [Hok Hst]. split; [by apply remove_job_array_ok|].
  destruct (find_job_by_pid p s) as [i|] eqn:E;
    [|by rewrite remove_job_absent].
  rewrite (remove_job_table _ _ _ Hok E), delete_take_drop. apply Forall_app.
  split; [by apply Forall_take|by apply Forall_drop].
Qed.

Lemma never_done_store i st s :
  never_done s → st ≠ DONE → (i < job_count s)%nat → never_done (set_state_at i st s).
Proof.
  intros [Hok Hst] Hne Hi. split; [by apply set_state_at_array_ok|].
  rewrite set_state_at_table by done. by apply Forall_insert.
Qed.

Lemma distinct_pids_add p cmd st s :
  distinct_pids s → unused_pid p s → (job_count s < MAX_JOBS)%nat →
  distinct_pids (with_new_job p cmd st s).
Proof.
  intros [Hok Hnd] Hp Hroom. split; [by apply with_new_job_array_ok|].
  rewrite with_new_job_table, fmap_app by done. apply NoDup_app.
  split_and!; [done| |apply NoDup_singleton].
  intros q Hq Hq'. apply list_elem_of_singleton in Hq'. simpl in Hq'. by subst q.
Qed.

Lemma distinct_pids_remove p s : distinct_pids s → distinct_pids (remove_job p s).
Proof.
  intros [Hok Hnd]. split; [by apply remove_job_array_ok|].
  destruct (find_job_by_pid p s) as [i|] eqn:E;
    [|by rewrite remove_job_absent].
  rewrite (remove_job_table _ _ _ Hok E).
  eapply sublist_NoDup; [exact Hnd|]. apply fmap_sublist, sublist_delete.
Qed.

Lemma distinct_pids_store i st s :
  distinct_pids s → (i < job_count s)%nat → distinct_pids (set_state_at i st s).
Proof.
  intros [Hok Hnd] Hi. split; [by apply set_state_at_array_ok|].
  by rewrite set_state_at_keys.
Qed.

Lemma distinct_pids_absent p s :
  distinct_pids s → find_job_by_pid p s = None → unused_pid p s.
Proof. intros [Hok _] Hf. by apply find_job_by_pid_absent. Qed.

Lemma never_done_fg p s : never_done s → never_done (set_fg_pid p s).
Proof. by intros [? ?]. Qed.

Lemma distinct_pids_fg p s : distinct_pids s → distinct_pids (set_fg_pid p s).
Proof. by intros [? ?]. Qed.

(** X27: no entry of the table is in state Done at the first prompt, and
    every signal handler and every pass of the main loop that starts with
    such a table, run with no handler between two of its statements other
    than during the foreground wait, has such a table whenever it is
    blocked in that wait and when it returns: the program stores only
    Running and Stopped, and [jobs] never prints the label [Done]. *)
Theorem no_entry_is_ever_done :
  sat no_wait (λ _, never_done) main_start ∧
  (∀ d s t, never_done s → sat no_wait (λ _, never_done) (handler d s t)) ∧
  (∀ inp k s t, never_done s →
     sat (λ _, never_done) (λ _, never_done) (main_iteration inp k s t)).
Proof.
  split_and!.
  - apply main_start_preserves. split; [apply init_shell_ok|constructor].
  - intros d s t. apply (handler_preserves never_done (λ _ _, True));
      auto using never_done_add, never_done_remove, never_done_store.
  - intros inp k s t Hs.
    apply (main_iteration_preserves never_done (λ _, never_done) (λ _ _, True));
      auto using never_done_add, never_done_remove, never_done_store, never_done_fg.
Qed.

(** X28: the pids of the table stay pairwise distinct through every
    signal handler and every built-in, whatever the foreground wait
    returns and whatever handlers run during it, and through a launch
    provided [fork] returns a pid that is in no entry. *)
Theorem pids_stay_distinct :
  (∀ d s t, distinct_pids s →
     sat no_wait (λ _, distinct_pids) (handler d s t)) ∧
  (∀ args s t, distinct_pids s →
     sat (λ _, distinct_pids) (λ _, distinct_pids) (builtin_command args s t)) ∧
  (∀ args background k s t,
     distinct_pids s → unused_pid (fork_result k) s →
     sat (λ _, distinct_pids) (λ _, distinct_pids)
         (execute_command args background k s t)).
Proof.
  split_and!.
  - intros d s t. apply (handler_preserves distinct_pids unused_pid);
      auto using distinct_pids_add, distinct_pids_remove, distinct_pids_store,
        distinct_pids_absent.
  - intros args s t. apply (builtin_command_preserves distinct_pids);
      auto using distinct_pids_remove, distinct_pids_store, distinct_pids_fg.
  - intros args background k s t Hs Hk.
    apply (execute_command_preserves distinct_pids (λ _, distinct_pids) unused_pid);
      auto using distinct_pids_add, distinct_pids_fg.
Qed.

End two_invariants.

(** ** Instances *)

Lemma three_jobs_pids : NoDup (pid <$> table three_jobs).
Proof. by apply (bool_decide_unpack _). Qed.

Lemma two_jobs_pids : NoDup (pid <$> table two_jobs).
Proof. by apply (bool_decide_unpack _). Qed.

Lemma parse_command_background_witness :
  (("&" ∉ take (MAX_ARGS - 1) (strtok "" "ls -l")) ∧
   parse_command "ls -l" = (take (MAX_ARGS - 1) (strtok "" "ls -l"), false)) ∧
  (strtok "" "sleep 30 & x" = ["sleep"; "30"] ++ "&" :: ["x"] ∧
   ("&" ∉ ["sleep"; "30"]) ∧ (length ["sleep"; "30"] < MAX_ARGS - 1)%nat ∧
   parse_command "sleep 30 & x" = (["sleep"; "30"], true)).
Proof.
  assert ("&" ∉ take (MAX_ARGS - 1) (strtok "" "ls -l")) as H1.
  { by apply (bool_decide_unpack _). }
  assert ("&" ∉ ["sleep"; "30"]) as H2.
  { by apply (bool_decide_unpack _). }
  assert (length ["sleep"; "30"] < MAX_ARGS - 1)%nat as H3
    by (unfold MAX_ARGS; simpl; lia).
  split.
  - split; [exact H1|].
    exact (proj1 (parse_command_background "ls -l") H1).
  - split_and!; [reflexivity|exact H2|exact H3|].
    exact (proj2 (parse_command_background "sleep 30 & x")
             ["sleep"; "30"] ["x"] eq_refl H2 H3).
Defined.

Lemma parse_command_join_args_witness :
  Forall is_word ["sleep"; "100"] ∧ ("&" ∉ ["sleep"; "100"]) ∧
  (length ["sleep"; "100"] ≤ MAX_ARGS - 1)%nat ∧
  parse_command (join_args ["sleep"; "100"]) = (["sleep"; "100"], false).
Proof.
  assert (Forall is_word ["sleep"; "100"]) as H1 by (repeat constructor; done).
  assert ("&" ∉ ["sleep"; "100"]) as H2.
  { by apply (bool_decide_unpack _). }
  assert (length ["sleep"; "100"] ≤ MAX_ARGS - 1)%nat as H3
    by (unfold MAX_ARGS; simpl; lia).
  split_and!; [exact H1|exact H2|exact H3|].
  exact (parse_command_join_args ["sleep"; "100"] H1 H2 H3).
Defined.

Lemma blank_line_is_ignored_witness :
  blank (chomp "  	 ") = true ∧
  main_iteration (Line "  	 ") parent_of_4242 three_jobs [] =
    Ret tt three_jobs ([] ++ [Printf "shell> "; Fflush]).
Proof.
  split; [reflexivity|].
  exact (blank_line_is_ignored "  	 " parent_of_4242 three_jobs [] eq_refl).
Defined.

Lemma shell_leaves_only_on_request_witness :
  fork_result parent_of_4242 ≠ 0 ∧
  (asks_to_leave (Line "exit now") →
     main_iteration (Line "exit now") parent_of_4242 three_jobs [] =
       Exited 0 ([] ++ [])) ∧
  (¬ asks_to_leave (Line "exit now") →
     never_exits (main_iteration (Line "exit now") parent_of_4242 three_jobs [])).
Proof.
  assert (fork_result parent_of_4242 ≠ 0) as H by discriminate.
  split; [exact H|].
  exact (shell_leaves_only_on_request (Line "exit now") parent_of_4242 three_jobs [] H).
Defined.

Lemma builtin_dispatch_witness :
  (("ls" ∉ builtin_names) ∧ builtin_command ("ls" :: ["-l"]) three_jobs [] = Ret 0 three_jobs []) ∧
  ("fg" ∈ job_commands ∧
   builtin_command ["fg"] three_jobs [] =
     Ret 1 three_jobs ([] ++ [Printf ("Usage: " +:+ "fg" +:+ " <job_id>" +:+ nl)])).
Proof.
  assert ("ls" ∉ builtin_names) as H1.
  { by apply (bool_decide_unpack _). }
  assert ("fg" ∈ job_commands) as H2 by (unfold job_commands; set_solver).
  split.
  - split; [exact H1|]. exact (proj1 (builtin_dispatch "ls" ["-l"] three_jobs []) H1).
  - split; [exact H2|]. exact (proj2 (builtin_dispatch "fg" [] three_jobs []) H2).
Defined.

Lemma failed_fork_returns_to_prompt_witness :
  parse_command (chomp "ls -l") = ("ls" :: ["-l"], false) ∧
  ("ls" ∉ builtin_names) ∧ fork_result fork_failed < 0 ∧
  main_iteration (Line "ls -l") fork_failed three_jobs [] =
    Ret tt three_jobs
      ([] ++ [Perror "fork error" (fork_errno fork_failed); Printf "shell> "; Fflush]).
Proof.
  assert ("ls" ∉ builtin_names) as H1.
  { by apply (bool_decide_unpack _). }
  assert (fork_result fork_failed < 0) as H2 by reflexivity.
  split_and!; [reflexivity|exact H1|exact H2|].
  exact (failed_fork_returns_to_prompt "ls -l" "ls" ["-l"] false fork_failed
           three_jobs [] eq_refl H1 H2).
Defined.

Lemma forked_child_execs_witness :
  fork_result child_failing = 0 ∧
  execute_command ("nosuchprog" :: []) false child_failing init_shell [] =
    if execvp_fails child_failing
    then Exited 1 ([] ++ child_setup ("nosuchprog" :: []) false
                      ++ [Printf ("Command not found: " +:+ "nosuchprog" +:+ nl)])
    else Replaced ([] ++ child_setup ("nosuchprog" :: []) false).
Proof.
  split; [reflexivity|].
  exact (forked_child_execs "nosuchprog" [] false child_failing init_shell [] eq_refl).
Defined.

Lemma background_launch_records_job_witness :
  array_ok three_jobs ∧ ["sleep"; "100"] ≠ [] ∧ 0 < fork_result parent_of_4242 ∧
  (String.length (join_args ["sleep"; "100"]) < MAX_LINE)%nat ∧
  (job_count three_jobs < MAX_JOBS)%nat ∧ next_job_id three_jobs < INT_MAX ∧
  ∃ s',
    execute_command ["sleep"; "100"] true parent_of_4242 three_jobs [] =
      Ret 1 s' ([] ++ [Printf (launch_notice (next_job_id three_jobs)
                                 (fork_result parent_of_4242)
                                 (join_args ["sleep"; "100"]))]) ∧
    table s' = table three_jobs
                 ++ [Job (next_job_id three_jobs) (fork_result parent_of_4242)
                         RUNNING (join_args ["sleep"; "100"])] ∧
    next_job_id s' = next_job_id three_jobs + 1 ∧
    fg_pid s' = fg_pid three_jobs.
Proof.
  assert (["sleep"; "100"] ≠ ([] : list string)) as H1 by discriminate.
  assert (0 < fork_result parent_of_4242) as H2 by reflexivity.
  assert (String.length (join_args ["sleep"; "100"]) < MAX_LINE)%nat as H3
    by (unfold MAX_LINE; simpl; lia).
  assert (job_count three_jobs < MAX_JOBS)%nat as H4 by (unfold MAX_JOBS; simpl; lia).
  assert (next_job_id three_jobs < INT_MAX) as H5 by reflexivity.
  split_and!; [exact three_jobs_ok|exact H1|exact H2|exact H3|exact H4|exact H5|].
  exact (background_launch_records_job ["sleep"; "100"] parent_of_4242 three_jobs []
           three_jobs_ok H1 H2 H3 H4 H5).
Defined.

Lemma foreground_launch_waits_for_child_witness :
  ["sleep"; "60"] ≠ [] ∧ 0 < fork_result parent_of_4242 ∧
  ∃ resume,
    execute_command ["sleep"; "60"] false parent_of_4242 three_jobs [] =
      Blocked (fork_result parent_of_4242)
        (set_fg_pid (fork_result parent_of_4242) three_jobs) [] resume ∧
    (∀ r s' t', resume r s' t' = Ret 1 (set_fg_pid 0 s') (t' ++ wait_report r)) ∧
    (fg_pid three_jobs = 0 →
     ∀ w, resume (WaitStatus w) (set_fg_pid (fork_result parent_of_4242) three_jobs) []
          = Ret 1 three_jobs []).
Proof.
  assert (["sleep"; "60"] ≠ ([] : list string)) as H1 by discriminate.
  assert (0 < fork_result parent_of_4242) as H2 by reflexivity.
  split_and!; [exact H1|exact H2|].
  exact (foreground_launch_waits_for_child ["sleep"; "60"] parent_of_4242 three_jobs []
           H1 H2).
Defined.

Lemma suspended_foreground_command_becomes_job_witness :
  array_ok three_jobs ∧ ["sleep"; "60"] ≠ [] ∧ 0 < fork_result parent_of_4242 ∧
  (fork_result parent_of_4242 ∉ pid <$> table three_jobs) ∧
  (job_count three_jobs < MAX_JOBS)%nat ∧ next_job_id three_jobs < INT_MAX ∧
  ∃ resume s1 t1 s2,
    execute_command ["sleep"; "60"] false parent_of_4242 three_jobs [] =
      Blocked (fork_result parent_of_4242)
        (set_fg_pid (fork_result parent_of_4242) three_jobs) [] resume ∧
    handler (Sigchld [(fork_result parent_of_4242, Wstopped 20)])
            (set_fg_pid (fork_result parent_of_4242) three_jobs) [] = Ret tt s1 t1 ∧
    t1 = [] ++ [Printf (stop_notice (next_job_id three_jobs)); Printf "shell> "; Fflush] ∧
    resume (WaitStatus (Wstopped 20)) s1 t1 = Ret 1 s2 t1 ∧
    table s2 = table three_jobs
                 ++ [Job (next_job_id three_jobs) (fork_result parent_of_4242)
                         STOPPED "(foreground job)"] ∧
    fg_pid s2 = 0.
Proof.
  assert (["sleep"; "60"] ≠ ([] : list string)) as H1 by discriminate.
  assert (0 < fork_result parent_of_4242) as H2 by reflexivity.
  assert (fork_result parent_of_4242 ∉ pid <$> table three_jobs) as H3
    by (by apply (bool_decide_unpack _)).
  assert (job_count three_jobs < MAX_JOBS)%nat as H4 by (unfold MAX_JOBS; simpl; lia).
  assert (next_job_id three_jobs < INT_MAX) as H5 by reflexivity.
  split_and!; [exact three_jobs_ok|exact H1|exact H2|exact H3|exact H4|exact H5|].
  exact (suspended_foreground_command_becomes_job ["sleep"; "60"] parent_of_4242 20
           three_jobs [] three_jobs_ok H1 H2 H3 H4 H5).
Defined.

Lemma termination_of_untracked_child_is_silent_witness :
  array_ok three_jobs ∧ (4242 ∉ pid <$> table three_jobs) ∧ terminated (Wexited 0) ∧
  reap 4242 (Wexited 0) three_jobs [] = Ret tt three_jobs [].
Proof.
  assert (4242 ∉ pid <$> table three_jobs) as H1 by (by apply (bool_decide_unpack _)).
  assert (terminated (Wexited 0)) as H2 by reflexivity.
  split_and!; [exact three_jobs_ok|exact H1|exact H2|].
  exact (termination_of_untracked_child_is_silent 4242 (Wexited 0) three_jobs []
           three_jobs_ok H1 H2).
Defined.

Lemma drain_reports_each_terminated_job_witness :
  array_ok three_jobs ∧ NoDup (pid <$> table three_jobs) ∧
  [Job 4 300 RUNNING "sleep 30 "; Job 1 100 RUNNING "sleep 10 "] ⊆ table three_jobs ∧
  NoDup (pid <$> [Job 4 300 RUNNING "sleep 30 "; Job 1 100 RUNNING "sleep 10 "]) ∧
  Forall (λ j, 0 < pid j ∧ terminated (Wexited 0))
         [Job 4 300 RUNNING "sleep 30 "; Job 1 100 RUNNING "sleep 10 "] ∧
  ∃ s',
    sigchld_handler ((λ j, (pid j, Wexited 0)) <$>
                       [Job 4 300 RUNNING "sleep 30 "; Job 1 100 RUNNING "sleep 10 "])
                    three_jobs [] =
      Ret tt s' ([] ++ mjoin (done_notice <$>
                   [Job 4 300 RUNNING "sleep 30 "; Job 1 100 RUNNING "sleep 10 "])) ∧
    table s' = filter (λ x, pid x ∉ pid <$>
                   [Job 4 300 RUNNING "sleep 30 "; Job 1 100 RUNNING "sleep 10 "])
                 (table three_jobs) ∧
    next_job_id s' = next_job_id three_jobs ∧ fg_pid s' = fg_pid three_jobs.
Proof.
  assert ([Job 4 300 RUNNING "sleep 30 "; Job 1 100 RUNNING "sleep 10 "]
            ⊆ table three_jobs) as H1.
  { intros j Hj. apply elem_of_cons in Hj as [->|Hj]; [by apply (bool_decide_unpack _)|].
    apply elem_of_cons in Hj as [->|Hj]; [by apply (bool_decide_unpack _)|].
    by apply elem_of_nil in Hj. }
  assert (NoDup (pid <$> [Job 4 300 RUNNING "sleep 30 "; Job 1 100 RUNNING "sleep 10 "]))
    as H2 by (by apply (bool_decide_unpack _)).
  assert (Forall (λ j, 0 < pid j ∧ terminated (Wexited 0))
            [Job 4 300 RUNNING "sleep 30 "; Job 1 100 RUNNING "sleep 10 "]) as H3
    by (repeat constructor).
  split_and!; [exact three_jobs_ok|exact three_jobs_pids|exact H1|exact H2|exact H3|].
  exact (drain_reports_each_terminated_job (λ _, Wexited 0) _ three_jobs []
           three_jobs_ok three_jobs_pids H1 H2 H3).
Defined.



Lemma atoi_reads_back_printed_number_witness :
  INT_MIN ≤ 42 ≤ INT_MAX ∧ atoi (dec 42) = Some 42.
Proof.
  assert (INT_MIN ≤ 42 ≤ INT_MAX) as H by (unfold INT_MIN, INT_MAX; lia).
  split; [exact H|]. exact (atoi_reads_back_printed_number 42 H).
Defined.

Lemma three_jobs_second_by_id :
  first_by job_id (table three_jobs) 1 (Job 2 200 STOPPED "(foreground job)").
Proof. apply first_by_NoDup; [by apply (bool_decide_unpack _)|reflexivity]. Qed.

Lemma three_jobs_third_by_id :
  first_by job_id (table three_jobs) 2 (Job 4 300 RUNNING "sleep 30 ").
Proof. apply first_by_NoDup; [by apply (bool_decide_unpack _)|reflexivity]. Qed.

Lemma two_jobs_ok : array_ok two_jobs.
Proof. split; [reflexivity|]. unfold MAX_JOBS; simpl; lia. Qed.

Lemma two_jobs_first_by_id : first_by job_id (table two_jobs) 0 (busy_job 1).
Proof. apply first_by_NoDup; [by apply (bool_decide_unpack _)|reflexivity]. Qed.

Lemma two_jobs_first_by_pid : first_by pid (table two_jobs) 0 (busy_job 1).
Proof. apply first_by_NoDup; [exact two_jobs_pids|reflexivity]. Qed.

Lemma kill_signals_and_keeps_entry_witness :
  array_ok three_jobs ∧
  first_by job_id (table three_jobs) 1 (Job 2 200 STOPPED "(foreground job)") ∧
  INT_MIN ≤ job_id (Job 2 200 STOPPED "(foreground job)") ≤ INT_MAX ∧
  builtin_command ("kill" :: dec (job_id (Job 2 200 STOPPED "(foreground job)")) :: [])
      three_jobs [] =
    Ret 1 three_jobs
      ([] ++ [Kill (pid (Job 2 200 STOPPED "(foreground job)")) SIGKILL;
              Printf ("Job [" +:+ dec (job_id (Job 2 200 STOPPED "(foreground job)"))
                        +:+ "] terminated" +:+ nl)]).
Proof.
  assert (INT_MIN ≤ job_id (Job 2 200 STOPPED "(foreground job)") ≤ INT_MAX) as H
    by (unfold INT_MIN, INT_MAX; simpl; lia).
  split_and!; [exact three_jobs_ok|exact three_jobs_second_by_id|apply H|apply H|].
  exact (kill_signals_and_keeps_entry [] three_jobs [] 1
           (Job 2 200 STOPPED "(foreground job)")
           three_jobs_ok three_jobs_second_by_id H).
Defined.

Lemma bg_leaves_running_job_alone_witness :
  array_ok three_jobs ∧
  first_by job_id (table three_jobs) 2 (Job 4 300 RUNNING "sleep 30 ") ∧
  INT_MIN ≤ job_id (Job 4 300 RUNNING "sleep 30 ") ≤ INT_MAX ∧
  state (Job 4 300 RUNNING "sleep 30 ") ≠ STOPPED ∧
  builtin_command ("bg" :: dec (job_id (Job 4 300 RUNNING "sleep 30 ")) :: [])
      three_jobs [] =
    Ret 1 three_jobs
      ([] ++ [Printf ("Job [" +:+ dec (job_id (Job 4 300 RUNNING "sleep 30 "))
                        +:+ "] is already running" +:+ nl)]).
Proof.
  assert (INT_MIN ≤ job_id (Job 4 300 RUNNING "sleep 30 ") ≤ INT_MAX) as H
    by (unfold INT_MIN, INT_MAX; simpl; lia).
  assert (state (Job 4 300 RUNNING "sleep 30 ") ≠ STOPPED) as H' by discriminate.
  split_and!; [exact three_jobs_ok|exact three_jobs_third_by_id|apply H|apply H|exact H'|].
  exact (bg_leaves_running_job_alone [] three_jobs [] 2 (Job 4 300 RUNNING "sleep 30 ")
           three_jobs_ok three_jobs_third_by_id H H').
Defined.

Lemma fg_removes_job_that_terminates_witness :
  array_ok two_jobs ∧ first_by job_id (table two_jobs) 0 (busy_job 1) ∧
  first_by pid (table two_jobs) 0 (busy_job 1) ∧
  INT_MIN ≤ job_id (busy_job 1) ≤ INT_MAX ∧
  ∃ resume t1,
    builtin_command ("fg" :: dec (job_id (busy_job 1)) :: []) two_jobs [] =
      Blocked (pid (busy_job 1)) (set_fg_pid (pid (busy_job 1)) two_jobs) t1 resume ∧
    t1 = [] ++ (if bool_decide (state (busy_job 1) = STOPPED)
                then [Kill (pid (busy_job 1)) SIGCONT] else [])
            ++ [Printf ("Bringing job [" +:+ dec (job_id (busy_job 1))
                          +:+ "] to foreground: " +:+ command (busy_job 1) +:+ nl)] ∧
    ∀ w, terminated w →
      ∃ s',
        resume (WaitStatus w) (set_fg_pid (pid (busy_job 1)) two_jobs) t1 = Ret 1 s' t1 ∧
        table s' = delete 0%nat (table two_jobs) ∧ fg_pid s' = 0 ∧
        next_job_id s' = next_job_id two_jobs.
Proof.
  assert (INT_MIN ≤ job_id (busy_job 1) ≤ INT_MAX) as H
    by (unfold INT_MIN, INT_MAX; simpl; lia).
  split_and!; [exact two_jobs_ok|exact two_jobs_first_by_id|exact two_jobs_first_by_pid
              |apply H|apply H|].
  exact (fg_removes_job_that_terminates [] two_jobs [] 0 (busy_job 1)
           two_jobs_ok two_jobs_first_by_id two_jobs_first_by_pid H).
Defined.

Lemma fg_removes_the_job_in_its_slot_witness :
  array_ok two_jobs ∧ NoDup (pid <$> table two_jobs) ∧
  first_by job_id (table two_jobs) 0 (busy_job 1) ∧
  table two_jobs !! 1%nat = Some (busy_job 2) ∧ 0 < pid (busy_job 1) ∧
  INT_MIN ≤ job_id (busy_job 1) ≤ INT_MAX ∧ terminated (Wexited 0) ∧
  ∃ resume t1 s2 t2 s3 t3,
    builtin_command ("fg" :: dec (job_id (busy_job 1)) :: []) two_jobs [] =
      Blocked (pid (busy_job 1)) (set_fg_pid (pid (busy_job 1)) two_jobs) t1 resume ∧
    handler (Sigchld [(pid (busy_job 1), Wexited 0)])
            (set_fg_pid (pid (busy_job 1)) two_jobs) t1 = Ret tt s2 t2 ∧
    table s2 = delete 0%nat (table two_jobs) ∧
    resume (WaitError ECHILD) s2 t2 = Ret 1 s3 t3 ∧
    table s3 = delete 0%nat (delete 0%nat (table two_jobs)) ∧
    busy_job 2 ∉ table s3.
Proof.
  assert (INT_MIN ≤ job_id (busy_job 1) ≤ INT_MAX) as H
    by (unfold INT_MIN, INT_MAX; simpl; lia).
  assert (0 < pid (busy_job 1)) as Hpos by reflexivity.
  assert (terminated (Wexited 0)) as Hw by reflexivity.
  split_and!; [exact two_jobs_ok|exact two_jobs_pids|exact two_jobs_first_by_id
              |reflexivity|exact Hpos|apply H|apply H|exact Hw|].
  exact (fg_removes_the_job_in_its_slot [] two_jobs [] 0
           (busy_job 1) (busy_job 2) (Wexited 0)
           two_jobs_ok two_jobs_pids two_jobs_first_by_id eq_refl Hpos H Hw).
Defined.

Lemma inserted_job_is_found_and_removable_witness :
  array_ok three_jobs ∧ (4242 ∉ pid <$> table three_jobs) ∧
  (job_count three_jobs < MAX_JOBS)%nat ∧ next_job_id three_jobs < INT_MAX ∧
  ∃ s',
    add_job 4242 "sleep 5 " RUNNING three_jobs [] = Ret tt s' [] ∧
    find_job_by_pid 4242 s' = Some (job_count three_jobs) ∧
    jobs s' !!! job_count three_jobs =
      Job (next_job_id three_jobs) 4242 RUNNING (strncpy (MAX_LINE - 1) "sleep 5 ") ∧
    table (remove_job 4242 s') = table three_jobs.
Proof.
  assert (4242 ∉ pid <$> table three_jobs) as H1 by (by apply (bool_decide_unpack _)).
  assert (job_count three_jobs < MAX_JOBS)%nat as H2 by (unfold MAX_JOBS; simpl; lia).
  assert (next_job_id three_jobs < INT_MAX) as H3 by reflexivity.
  split_and!; [exact three_jobs_ok|exact H1|exact H2|exact H3|].
  exact (inserted_job_is_found_and_removable 4242 "sleep 5 " RUNNING three_jobs []
           three_jobs_ok H1 H2 H3).
Defined.

Lemma removed_pid_is_no_longer_found_witness :
  array_ok three_jobs ∧ NoDup (pid <$> table three_jobs) ∧
  find_job_by_pid 200 (remove_job 200 three_jobs) = None ∧
  table (remove_job 200 three_jobs) = filter (λ j, pid j ≠ 200) (table three_jobs).
Proof.
  split_and!; [exact three_jobs_ok|exact three_jobs_pids|..];
    apply (removed_pid_is_no_longer_found 200 three_jobs three_jobs_ok three_jobs_pids).
Defined.

Lemma update_job_state_touches_one_state_witness :
  array_ok three_jobs ∧ NoDup (pid <$> table three_jobs) ∧
  ((4242 ∉ pid <$> table three_jobs) ∧
   update_job_state 4242 RUNNING three_jobs = three_jobs) ∧
  (table three_jobs !! 1%nat = Some (Job 2 200 STOPPED "(foreground job)") ∧
   pid (Job 2 200 STOPPED "(foreground job)") = 200 ∧
   table (update_job_state 200 RUNNING three_jobs) =
     <[1%nat := Job (job_id (Job 2 200 STOPPED "(foreground job)")) 200 RUNNING
                    (command (Job 2 200 STOPPED "(foreground job)"))]> (table three_jobs) ∧
   next_job_id (update_job_state 200 RUNNING three_jobs) = next_job_id three_jobs ∧
   fg_pid (update_job_state 200 RUNNING three_jobs) = fg_pid three_jobs).
Proof.
  assert (4242 ∉ pid <$> table three_jobs) as H1 by (by apply (bool_decide_unpack _)).
  split_and!; [exact three_jobs_ok|exact three_jobs_pids|exact H1| |reflexivity|reflexivity|..].
  - exact (proj1 (update_job_state_touches_one_state 4242 RUNNING three_jobs
                    three_jobs_ok three_jobs_pids) H1).
  - apply (proj2 (update_job_state_touches_one_state 200 RUNNING three_jobs
                    three_jobs_ok three_jobs_pids) 1%nat _ eq_refl eq_refl).
  - apply (proj2 (update_job_state_touches_one_state 200 RUNNING three_jobs
                    three_jobs_ok three_jobs_pids) 1%nat _ eq_refl eq_refl).
  - apply (proj2 (update_job_state_touches_one_state 200 RUNNING three_jobs
                    three_jobs_ok three_jobs_pids) 1%nat _ eq_refl eq_refl).
Defined.

Lemma list_jobs_prints_the_table_witness :
  array_ok three_jobs ∧
  list_jobs three_jobs [] = Ret tt three_jobs ([] ++ listing (table three_jobs)).
Proof.
  split; [exact three_jobs_ok|].
  exact (list_jobs_prints_the_table three_jobs [] three_jobs_ok).
Defined.

Lemma three_jobs_kept : kept three_jobs.
Proof.
  split_and!; [exact three_jobs_ok|repeat constructor; simpl; lia|
               |repeat constructor; unfold MAX_LINE; simpl; lia].
  intros i i' j j' Hlt Hi Hi'.
  destruct i as [|[|[|i]]], i' as [|[|[|i']]]; simpl in *;
    try lia; simplify_eq; simpl; lia.
Qed.

Lemma three_jobs_within_bounds : within_bounds three_jobs.
Proof.
  split_and!; [exact three_jobs_ok|repeat constructor; simpl; lia|done|done].
Qed.

Lemma three_jobs_never_done : never_done three_jobs.
Proof. split; [exact three_jobs_ok|repeat constructor; discriminate]. Qed.

Lemma table_is_in_id_order_witness :
  kept three_jobs ∧
  sat no_wait (λ _, kept) (handler (Sigchld [(200, Wexited 0)]) three_jobs []) ∧
  sat (λ _, kept) (λ _, kept)
      (main_iteration (Line "sleep 100 &") parent_of_4242 three_jobs []).
Proof.
  destruct table_is_in_id_order as (_ & Hhandler & Hloop).
  split_and!; [exact three_jobs_kept|..].
  - exact (Hhandler (Sigchld [(200, Wexited 0)]) three_jobs [] three_jobs_kept).
  - exact (Hloop (Line "sleep 100 &") parent_of_4242 three_jobs [] three_jobs_kept).
Defined.

Lemma table_stays_within_bounds_witness :
  within_bounds three_jobs ∧
  sat no_wait (λ _, within_bounds)
      (handler (Sigchld [(4242, Wstopped 20)]) three_jobs []) ∧
  sat (λ _, within_bounds) (λ _, within_bounds)
      (main_iteration (Line "sleep 100 &") parent_of_4242 three_jobs []).
Proof.
  destruct table_stays_within_bounds as (_ & Hhandler & Hloop).
  split_and!; [exact three_jobs_within_bounds|..].
  - exact (Hhandler (Sigchld [(4242, Wstopped 20)]) three_jobs []
             three_jobs_within_bounds).
  - exact (Hloop (Line "sleep 100 &") parent_of_4242 three_jobs []
             three_jobs_within_bounds).
Defined.

Lemma no_entry_is_ever_done_witness :
  never_done three_jobs ∧
  sat no_wait (λ _, never_done)
      (handler (Sigchld [(100, Wstopped 20)]) three_jobs []) ∧
  sat (λ _, never_done) (λ _, never_done)
      (main_iteration (Line "bg 2") parent_of_4242 three_jobs []).
Proof.
  destruct no_entry_is_ever_done as (_ & Hhandler & Hloop).
  split_and!; [exact three_jobs_never_done|..].
  - exact (Hhandler (Sigchld [(100, Wstopped 20)]) three_jobs [] three_jobs_never_done).
  - exact (Hloop (Line "bg 2") parent_of_4242 three_jobs [] three_jobs_never_done).
Defined.

Lemma pids_stay_distinct_witness :
  distinct_pids three_jobs ∧ unused_pid (fork_result parent_of_4242) three_jobs ∧
  sat no_wait (λ _, distinct_pids) (handler (Sigchld [(200, Wexited 0)]) three_jobs []) ∧
  sat (λ _, distinct_pids) (λ _, distinct_pids)
      (builtin_command ["fg"; "2"] three_jobs []) ∧
  sat (λ _, distinct_pids) (λ _, distinct_pids)
      (execute_command ["sleep"; "100"] true parent_of_4242 three_jobs []).
Proof.
  assert (distinct_pids three_jobs) as H1 by (split; [exact three_jobs_ok|exact three_jobs_pids]).
  assert (unused_pid (fork_result parent_of_4242) three_jobs) as H2
    by (by apply (bool_decide_unpack _)).
  destruct pids_stay_distinct as (Hhandler & Hbuiltin & Hlaunch).
  split_and!; [exact H1|exact H2|..].
  - exact (Hhandler (Sigchld [(200, Wexited 0)]) three_jobs [] H1).
  - exact (Hbuiltin ["fg"; "2"] three_jobs [] H1).
  - exact (Hlaunch ["sleep"; "100"] true parent_of_4242 three_jobs [] H1 H2).
Defined.
